(** * nwm: the core of a minimal X11 window manager (src/nwm/nwm.c)

    A shallow embedding of the state-tracking and event-dispatch code of
    [nwm.c]: the command wrappers, the window registry, the key grab table,
    the monitor registry and the event handlers with their dispatch table.

    - The process-wide [nwm] struct is a record threaded through every
      function.
    - The X server, and the helpers of [x11_misc.cc] that only read from it,
      are a record of replies; a query leaves no trace and is answered the
      same way throughout one run.
    - Every call that acts on the server ([XMoveWindow], [XFlush], ...), on
      an effectful helper of [x11_misc.cc] ([grabButtons], [SendEvent]) or
      on the controller boundary ([nwm_emit], whose body is empty in this
      revision) is recorded in a trace, in program order.
    - [exit(-1)] after a failed allocation ends the run.
    - [int] and [unsigned] values are in [Z]; the counters stay far from the
      limits of their types.  [fprintf] logging, [XFree] and [free] are not
      modelled.  [nwm_init] and [nwm_kill_window] come after the core, with
      the few calls only they make; [nwm_empty_keys], which frees the list
      nodes and leaves [nwm.keys] pointing at them, has no counterpart. *)

From Stdlib Require Import ZArith List Bool String Lia.
From stdpp Require Import base gmap.
Import ListNotations.
Local Open Scope Z_scope.

(** ** Protocol types and header constants (X.h, Xatom.h) *)

Definition Window := Z.
Definition Atom := Z.
Definition KeySym := Z.

Definition None_ : Z := 0.
Definition CurrentTime : Z := 0.
Definition NoEventMask : Z := 0.
Definition EnterWindowMask : Z := Z.shiftl 1 4.
Definition StructureNotifyMask : Z := Z.shiftl 1 17.
Definition FocusChangeMask : Z := Z.shiftl 1 21.
Definition PropertyChangeMask : Z := Z.shiftl 1 22.
Definition LockMask : Z := Z.shiftl 1 1.
Definition AnyModifier : Z := Z.shiftl 1 15.
Definition AnyKey : Z := 0.
Definition AnyButton : Z := 0.
Definition GrabModeAsync : Z := 1.
Definition RevertToPointerRoot : Z := 1.
Definition IsViewable : Z := 2.
Definition PropModeReplace : Z := 0.
Definition PropertyDelete : Z := 1.
Definition XA_ATOM : Atom := 4.
Definition XA_WM_NAME : Atom := 39.

(** [static const char broken[] = "broken";] *)
Definition broken : string := "broken".

(** The fields of [XWindowAttributes] the code reads. *)
Record XWindowAttributes := {
  wa_x : Z; wa_y : Z; wa_width : Z; wa_height : Z;
  wa_border_width : Z;
  wa_map_state : Z;
  wa_override_redirect : bool
}.

(** [XClassHint]: either pointer may be NULL. *)
Record XClassHint := {
  res_name : option string;
  res_class : option string
}.

Record XineramaScreenInfo := {
  screen_number : Z;
  x_org : Z; y_org : Z; width : Z; height : Z
}.

Record XWindowChanges := {
  wc_x : Z; wc_y : Z; wc_width : Z; wc_height : Z;
  wc_border_width : Z; wc_sibling : Z; wc_stack_mode : Z
}.

(** The [XEvent] union, one constructor per event type the core handles or
    sends, with the members the code reads or assigns. *)
Inductive XEvent :=
| ButtonPress (window : Window)
| ClientMessage (window : Window) (message_type : Atom) (format : Z)
                (l0 l1 : Z)
| ConfigureRequest (window : Window)
| ConfigureNotify (event window : Window) (x y w h border_width : Z)
                  (above : Window) (override_redirect : bool)
| DestroyNotify (window : Window)
| EnterNotify (window : Window)
| FocusIn (window : Window)
| KeyPress (x y keycode state : Z)
| MapRequest (window : Window)
| PropertyNotify (window : Window) (atom : Atom) (state : Z)
| UnmapNotify (window : Window)
| OtherEvent (type : Z).

(** [struct Key] of the linked list [nwm.keys]; the list head comes first. *)
Record Key := { keysym : KeySym; mod_ : Z }.

(** ** The controller boundary *)

(** [callback_map]: the event kinds handed to [nwm_emit]. *)
Inductive callback_map :=
| onAddMonitor | onUpdateMonitor | onRemoveMonitor
| onAddWindow | onUpdateWindow | onRemoveWindow
| onRearrange | onMouseDown | onMouseDrag
| onConfigureRequest | onKeyPress | onEnterNotify | onFullscreen.

(** The payload of an emission.  Each constructor carries exactly the
    fields the emitting code assigns before the call; a struct member the
    code leaves unassigned has no counterpart here. *)
Inductive nwm_event :=
| ev_null
| ev_monitor (id x y w h : Z)            (* add / update monitor *)
| ev_monitor_id (id : Z)                 (* remove monitor: id only *)
| ev_pointer (id : Window) (x y : Z)     (* selected-monitor probe *)
| ev_window (id : Window) (x y h w : Z) (isfloating : bool)
| ev_window_id (id : Window)             (* remove window: id only *)
| ev_window_title (id : Window) (title instance klass : string)
| ev_window_fullscreen (id : Window) (fullscreen : Z)
| ev_keypress (x y keycode : Z) (keysym : KeySym) (modifier : Z)
| ev_raw (e : XEvent).                   (* the XEvent passed through *)

(** ** Effects *)

(** One entry per effectful call, in program order. *)
Inductive call :=
| XSelectInput (w : Window) (mask : Z)
| XUngrabKey (keycode modifiers : Z) (w : Window)
| XGrabKey (keycode modifiers : Z) (w : Window) (owner_events : bool)
           (pointer_mode keyboard_mode : Z)
| XMoveWindow (w : Window) (x y : Z)
| XResizeWindow (w : Window) (width height : Z)
| XMoveResizeWindow (w : Window) (x y width height : Z)
| XConfigureWindow (w : Window) (value_mask : Z) (wc : XWindowChanges)
| XSendEvent (w : Window) (propagate : bool) (mask : Z) (e : XEvent)
| XSetInputFocus (w : Window) (revert_to time : Z)
| XRaiseWindow (w : Window)
| XMapWindow (w : Window)
| XChangeProperty (w : Window) (property type : Atom) (format mode : Z)
                  (data : list Atom)
| XGrabServer
| XUngrabServer
| XUngrabButton (button modifiers : Z) (w : Window)
| XSync (discard : bool)
| XFlush
| grabButtons (w : Window) (focused : bool)      (* x11_misc.cc *)
| SendEvent (w : Window) (a : Atom)              (* x11_misc.cc *)
| nwm_emit (event : callback_map) (ev : nwm_event).

(** The process-wide [nwm] struct (the display handle is left out). *)
Record nwm_t := {
  root : Window;
  screen_width : Z;
  screen_height : Z;
  total_monitors : Z;
  numlockmask : Z;
  selected : Window;
  keys : list Key
}.

(** What the server (and the helpers of [x11_misc.cc] that only read from
    it) answers.  A status of zero is [None]. *)
Record xserver := {
  reply_XGetWindowAttributes : Window -> option XWindowAttributes;
  reply_XGetTransientForHint : Window -> option Window;
  reply_XQueryTree : Window -> option (list Window);
  reply_XGetClassHint : Window -> option XClassHint;
  reply_XInternAtom : string -> Atom;
  reply_XKeysymToKeycode : KeySym -> Z;
  reply_XKeycodeToKeysym : Z -> KeySym;
  reply_XineramaIsActive : bool;
  reply_XineramaQueryScreens : list XineramaScreenInfo;
  (* x11_misc.cc: the text buffer before the call, the status and the
     buffer after it *)
  reply_gettextprop : Window -> Atom -> string -> bool * string;
  reply_getrootptr : option (Z * Z);
  reply_updatenumlockmask : Z;
  (* whether an allocation of that many bytes succeeds *)
  reply_malloc : Z -> bool;
  (* the indeterminate contents of the automatic arrays [name], [klass]
     and [instance] of nwm_update_window on entry, read as C strings *)
  auto_name : string;
  auto_klass : string;
  auto_instance : string
}.

(** A computation either runs to its end or leaves through [exit(code)]. *)
Inductive result (A : Type) :=
| Ok (a : A)
| Exit (code : Z).
Arguments Ok {A} a.
Arguments Exit {A} code.

Definition M (A : Type) : Type := nwm_t -> result A * nwm_t * list call.

Definition ret {A} (a : A) : M A := fun s => (Ok a, s, []).

Definition bind {A B} (m : M A) (f : A -> M B) : M B :=
  fun s =>
    match m s with
    | (Ok a, s1, t1) =>
        match f a s1 with
        | (r, s2, t2) => (r, s2, t1 ++ t2)
        end
    | (Exit c, s1, t1) => (Exit c, s1, t1)
    end.

Definition get : M nwm_t := fun s => (Ok s, s, []).
Definition put (s : nwm_t) : M unit := fun _ => (Ok tt, s, []).
Definition do_ (c : call) : M unit := fun s => (Ok tt, s, [c]).
Definition exit {A} (code : Z) : M A := fun s => (Exit code, s, []).

Declare Scope nwm_scope.
Delimit Scope nwm_scope with nwm.
Notation "x <- m ;; k" := (bind m (fun x => k))
  (at level 100, m at next level, right associativity) : nwm_scope.
Notation "m ;; k" := (bind m (fun _ => k))
  (at level 100, right associativity) : nwm_scope.
Local Open Scope nwm_scope.

(** The [Status] an Xlib query returns along with its reply. *)
Definition status {A} (reply : option A) : bool :=
  match reply with Some _ => true | None => false end.

Definition when (b : bool) (m : M unit) : M unit := if b then m else ret tt.

(** Projections of a run. *)
Definition outcome {A} (r : result A * nwm_t * list call) : result A := r.1.1.
Definition state_of {A} (r : result A * nwm_t * list call) : nwm_t := r.1.2.
Definition trace_of {A} (r : result A * nwm_t * list call) : list call := r.2.

(** Field updates of the [nwm] struct. *)
Definition set_selected (w : Window) (s : nwm_t) : nwm_t :=
  {| root := root s; screen_width := screen_width s;
     screen_height := screen_height s; total_monitors := total_monitors s;
     numlockmask := numlockmask s; selected := w; keys := keys s |}.

Definition set_total_monitors (n : Z) (s : nwm_t) : nwm_t :=
  {| root := root s; screen_width := screen_width s;
     screen_height := screen_height s; total_monitors := n;
     numlockmask := numlockmask s; selected := selected s; keys := keys s |}.

Definition set_numlockmask (m : Z) (s : nwm_t) : nwm_t :=
  {| root := root s; screen_width := screen_width s;
     screen_height := screen_height s; total_monitors := total_monitors s;
     numlockmask := m; selected := selected s; keys := keys s |}.

Definition set_keys (k : list Key) (s : nwm_t) : nwm_t :=
  {| root := root s; screen_width := screen_width s;
     screen_height := screen_height s; total_monitors := total_monitors s;
     numlockmask := numlockmask s; selected := selected s; keys := k |}.

Definition modify (f : nwm_t -> nwm_t) : M unit := fun s => (Ok tt, f s, []).

(** ** The command wrappers *)

Section Model.
Context (X : xserver).

Definition nwm_move_window (win : Window) (x y : Z) : M unit :=
  do_ (XMoveWindow win x y) ;;
  do_ XFlush.

Definition nwm_resize_window (win : Window) (width height : Z) : M unit :=
  do_ (XResizeWindow win width height) ;;
  do_ XFlush.

Definition nwm_focus_window (win : Window) : M unit :=
  do_ (grabButtons win true) ;;
  do_ (XSetInputFocus win RevertToPointerRoot CurrentTime) ;;
  let atom := reply_XInternAtom X "WM_TAKE_FOCUS" in
  do_ (SendEvent win atom) ;;
  do_ XFlush ;;
  modify (set_selected win).

Definition nwm_configure_window (win : Window) (x y width height
    border_width above detail value_mask : Z) : M unit :=
  let wc := {| wc_x := x; wc_y := y; wc_width := width; wc_height := height;
               wc_border_width := border_width; wc_sibling := above;
               wc_stack_mode := detail |} in
  do_ (XConfigureWindow win value_mask wc).

Definition nwm_notify_window (win : Window) (x y width height
    border_width above detail value_mask : Z) : M unit :=
  let ce := ConfigureNotify win win x y width height border_width None_ false in
  do_ (XSendEvent win false StructureNotifyMask ce).

(** ** Window registry *)

(** [strncpy(dst, src, 256-1); dst[256-1] = 0;] leaves in [dst] the C string
    made of the first 255 characters of [src]. *)
Definition strncpy_255 (src : string) : string := substring 0 255 src.

Definition is_empty (s : string) : bool :=
  match s with EmptyString => true | String _ _ => false end.

Definition nwm_update_window (win : Window) : M unit :=
  let name := auto_name X in
  let klass := auto_klass X in
  let instance := auto_instance X in
  let NetWMName := reply_XInternAtom X "_NET_WM_NAME" in
  let name :=
    match reply_gettextprop X win NetWMName name with
    | (true, name) => name
    | (false, name) => snd (reply_gettextprop X win XA_WM_NAME name)
    end in
  let name := if is_empty name then broken else name in
  let '(klass, instance) :=
    match reply_XGetClassHint X win with
    | Some ch =>
        (strncpy_255 (match res_class ch with Some c => c | None => broken end),
         strncpy_255 (match res_name ch with Some n => n | None => broken end))
    | None => (klass, instance)
    end in
  do_ (nwm_emit onUpdateWindow (ev_window_title win name instance klass)).

Definition nwm_add_window (win : Window) (wa : XWindowAttributes) : M unit :=
  let trans :=
    match reply_XGetTransientForHint X win with
    | Some t => t
    | None => None_
    end in
  let isfloating := negb (trans =? None_) in
  do_ (nwm_emit onAddWindow
         (ev_window win (wa_x wa) (wa_y wa) (wa_height wa) (wa_width wa)
                    isfloating)) ;;
  nwm_update_window win ;;
  let ce := ConfigureNotify win win (wa_x wa) (wa_y wa) (wa_width wa)
              (wa_height wa) (wa_border_width wa) None_ false in
  do_ (XSendEvent win false StructureNotifyMask ce) ;;
  do_ (XSelectInput win
         (Z.lor (Z.lor (Z.lor EnterWindowMask FocusChangeMask)
                       PropertyChangeMask) StructureNotifyMask)) ;;
  do_ (grabButtons win false) ;;
  when isfloating (do_ (XRaiseWindow win)) ;;
  do_ (XMoveResizeWindow win (wa_x wa) (wa_y wa) (wa_width wa) (wa_height wa)) ;;
  do_ (XMapWindow win).

Definition nwm_remove_window (win : Window) (destroyed : bool) : M unit :=
  do_ (nwm_emit onRemoveWindow (ev_window_id win)) ;;
  when (negb destroyed)
    (do_ XGrabServer ;;
     do_ (XUngrabButton AnyButton AnyModifier win) ;;
     do_ (XSync false) ;;
     do_ XUngrabServer) ;;
  s <- get ;;
  nwm_focus_window (root s) ;;
  do_ (nwm_emit onRearrange ev_null).

(** [for(i = 0; i < num; i++) body(wins[i]);] *)
Fixpoint for_each {A} (l : list A) (body : A -> M unit) : M unit :=
  match l with
  | [] => ret tt
  | a :: l' => body a ;; for_each l' body
  end.

(** Body of the first loop of nwm_scan_windows. *)
Definition scan_first_pass (w : Window) : M unit :=
  match reply_XGetWindowAttributes X w with
  | None => ret tt
  | Some watt =>
      if wa_override_redirect watt || status (reply_XGetTransientForHint X w)
      then ret tt
      else when (wa_map_state watt =? IsViewable) (nwm_add_window w watt)
  end.

(** Body of the second loop ("now the transients"). *)
Definition scan_second_pass (w : Window) : M unit :=
  match reply_XGetWindowAttributes X w with
  | None => ret tt
  | Some watt =>
      when (status (reply_XGetTransientForHint X w)
            && (wa_map_state watt =? IsViewable))
           (nwm_add_window w watt)
  end.

Definition nwm_scan_windows : M unit :=
  s <- get ;;
  match reply_XQueryTree X (root s) with
  | Some wins =>
      for_each wins scan_first_pass ;;
      for_each wins scan_second_pass
  | None => ret tt
  end.

(** ** Key grab table *)

(** The allocation of a [Key] is [calloc(1, sizeof(Key))]: 24 bytes. *)
Definition nwm_add_key (keysym : KeySym) (mod_ : Z) : M unit :=
  if reply_malloc X 24
  then modify (fun s => set_keys ({| keysym := keysym; mod_ := mod_ |} :: keys s) s)
  else exit (-1).

(** The [root] parameter is shadowed by [nwm.root] throughout the body. *)
Definition nwm_grab_keys (root_ : Window) : M unit :=
  modify (set_numlockmask (reply_updatenumlockmask X)) ;;
  s <- get ;;
  let modifiers := [0; LockMask; numlockmask s; Z.lor (numlockmask s) LockMask] in
  do_ (XUngrabKey AnyKey AnyModifier (root s)) ;;
  for_each (keys s) (fun curr =>
    for_each modifiers (fun m =>
      do_ (XGrabKey (reply_XKeysymToKeycode X (keysym curr))
                    (Z.lor (mod_ curr) m) (root s) true
                    GrabModeAsync GrabModeAsync))).

(** ** Monitor registry *)

Definition same_geom (a b : XineramaScreenInfo) : bool :=
  (x_org a =? x_org b) && (y_org a =? y_org b)
  && (width a =? width b) && (height a =? height b).

(** Modelled from the spec: [isuniquegeom] of x11_misc.cc, which is not among
    the sources.  "A region is unique if no previously accepted region in
    this pass shares all four coordinates." *)
Definition isuniquegeom (unique : list XineramaScreenInfo)
    (info : XineramaScreenInfo) : bool :=
  negb (existsb (fun u => same_geom u info) unique).

(** [for(i = 0, j = 0; i < nn; i++) if(isuniquegeom(unique, j, &info[i]))
      memcpy(&unique[j++], &info[i], ...);]
    [unique] holds the [j] entries accepted so far. *)
Fixpoint collect_unique (unique info : list XineramaScreenInfo)
  : list XineramaScreenInfo :=
  match info with
  | [] => unique
  | i :: rest =>
      if isuniquegeom unique i
      then collect_unique (unique ++ [i]) rest
      else collect_unique unique rest
  end.

Definition nwm_update_selected_monitor : M unit :=
  match reply_getrootptr X with
  | Some (x, y) =>
      s <- get ;;
      do_ (nwm_emit onEnterNotify (ev_pointer (root s) x y))
  | None => ret tt
  end.

(** [for(i = 0; i < nn; i++)] of the branch [total_monitors <= nn]; the
    argument list is [unique[i..nn)]. *)
Fixpoint emit_monitors (i : Z) (unique : list XineramaScreenInfo) : M unit :=
  match unique with
  | [] => ret tt
  | u :: rest =>
      let event_data := ev_monitor i (x_org u) (y_org u) (width u) (height u) in
      s <- get ;;
      (if i >=? total_monitors s
       then do_ (nwm_emit onAddMonitor event_data) ;;
            modify (fun s => set_total_monitors (total_monitors s + 1) s)
       else do_ (nwm_emit onUpdateMonitor event_data)) ;;
      emit_monitors (i + 1) rest
  end.

(** [for(i = nn; i < nwm.total_monitors; i++)] of the other branch.  The
    bound is re-read on every test; [fuel] only bounds the recursion. *)
Fixpoint remove_monitors (fuel : nat) (i : Z) : M unit :=
  match fuel with
  | O => ret tt
  | S fuel =>
      s <- get ;;
      if i <? total_monitors s
      then do_ (nwm_emit onRemoveMonitor (ev_monitor_id i)) ;;
           modify (fun s => set_total_monitors (total_monitors s - 1) s) ;;
           remove_monitors fuel (i + 1)
      else ret tt
  end.

(** [sizeof(XineramaScreenInfo)]: an int and four shorts. *)
Definition sizeof_XineramaScreenInfo : Z := 12.

Definition nwm_scan_monitors : M unit :=
  s <- get ;;
  if negb (reply_XineramaIsActive X) && (total_monitors s =? 0)
  then
    modify (fun s => set_total_monitors (total_monitors s + 1) s) ;;
    s <- get ;;
    do_ (nwm_emit onAddMonitor
           (ev_monitor 0 0 0 (screen_width s) (screen_height s))) ;;
    nwm_update_selected_monitor
  else
    let info := reply_XineramaQueryScreens X in
    let nn := Z.of_nat (length info) in
    if negb (reply_malloc X (sizeof_XineramaScreenInfo * nn))
    then exit (-1)
    else
      let unique := collect_unique [] info in
      let nn := Z.of_nat (length unique) in
      s <- get ;;
      (if total_monitors s <=? nn
       then emit_monitors 0 unique
       else remove_monitors (Z.to_nat (total_monitors s - nn)) nn) ;;
      nwm_update_selected_monitor.

(** ** Event handlers *)

(** [cme->data.l[1] == NetWMFullscreen] compares a [long] with an
    [unsigned long]: the left operand is converted (LP64). *)
Definition to_unsigned_long (l : Z) : Z := l mod 2 ^ 64.

Definition event_clientmessage (window : Window) (message_type : Atom)
    (l0 l1 : Z) : M unit :=
  let NetWMState := reply_XInternAtom X "_NET_WM_STATE" in
  let NetWMFullscreen := reply_XInternAtom X "_NET_WM_STATE_FULLSCREEN" in
  if (message_type =? NetWMState) && (to_unsigned_long l1 =? NetWMFullscreen)
  then
    (if negb (l0 =? 0)
     then do_ (XChangeProperty window NetWMState XA_ATOM 32 PropModeReplace
                 [NetWMFullscreen]) ;;
          do_ (XRaiseWindow window) ;;
          do_ (nwm_emit onFullscreen (ev_window_fullscreen window 1))
     else do_ (XChangeProperty window NetWMState XA_ATOM 32 PropModeReplace []) ;;
          do_ (nwm_emit onFullscreen (ev_window_fullscreen window 0)))
  else ret tt.

Definition event_configurenotify (window : Window) (w h : Z) : M unit :=
  s <- get ;;
  if window =? root s
  then
    put {| root := root s; screen_width := w; screen_height := h;
           total_monitors := total_monitors s; numlockmask := numlockmask s;
           selected := selected s; keys := keys s |} ;;
    nwm_scan_monitors ;;
    do_ (nwm_emit onRearrange ev_null)
  else ret tt.

Definition event_destroynotify (window : Window) : M unit :=
  nwm_remove_window window true.

Definition event_unmapnotify (window : Window) : M unit :=
  nwm_remove_window window false.

(** [Bool found = True;] stands where the lookup in the list of seen windows
    is still to be written. *)
(** [(KeyCode)ev->keycode] truncates to an unsigned char;
    [ev->state & ~(nwm.numlockmask|LockMask)] clears those bits. *)
Definition event_keypress (x y keycode state : Z) : M unit :=
  let keysym := reply_XKeycodeToKeysym X (keycode mod 256) in
  s <- get ;;
  do_ (nwm_emit onKeyPress
         (ev_keypress x y keycode keysym
            (Z.ldiff state (Z.lor (numlockmask s) LockMask)))).

Definition event_maprequest (window : Window) : M unit :=
  match reply_XGetWindowAttributes X window with
  | None => ret tt
  | Some wa =>
      if wa_override_redirect wa then ret tt
      else
        let found := true in
        if negb found
        then nwm_add_window window wa ;;
             do_ (nwm_emit onRearrange ev_null)
        else ret tt
  end.

Definition event_focusin (window : Window) : M unit :=
  s <- get ;;
  if negb (selected s =? 0) && negb (window =? selected s)
  then
    let found := true in
    when found (nwm_focus_window (selected s))
  else ret tt.

Definition event_propertynotify (window : Window) (atom : Atom) (state : Z)
  : M unit :=
  s <- get ;;
  if (window =? root s) && (atom =? XA_WM_NAME) then ret tt
  else if state =? PropertyDelete then ret tt
  else
    let NetWMName := reply_XInternAtom X "_NET_WM_NAME" in
    when ((atom =? XA_WM_NAME) || (atom =? NetWMName))
         (nwm_update_window window).

(** The dispatch table [handler[LASTEvent]]; an event type without an entry
    is only logged. *)
Definition handler (e : XEvent) : M unit :=
  match e with
  | ButtonPress _ => do_ (nwm_emit onMouseDown (ev_raw e))
  | ClientMessage window message_type _ l0 l1 =>
      event_clientmessage window message_type l0 l1
  | ConfigureRequest _ => do_ (nwm_emit onConfigureRequest (ev_raw e))
  | ConfigureNotify _ window _ _ w h _ _ _ => event_configurenotify window w h
  | DestroyNotify window => event_destroynotify window
  | EnterNotify _ => do_ (nwm_emit onEnterNotify (ev_raw e))
  | FocusIn window => event_focusin window
  | KeyPress x y keycode state => event_keypress x y keycode state
  | MapRequest window => event_maprequest window
  | PropertyNotify window atom state => event_propertynotify window atom state
  | UnmapNotify window => event_unmapnotify window
  | OtherEvent _ => ret tt
  end.


End Model.

(** ** Observations on traces *)

#[global] Instance callback_map_eq_dec : EqDecision callback_map.
Proof. solve_decision. Defined.

(** The emissions of kind [cb] in a trace. *)
Definition is_emit (cb : callback_map) (c : call) : bool :=
  match c with
  | nwm_emit cb' _ => bool_decide (cb' = cb)
  | _ => false
  end.

Definition count_emits (cb : callback_map) (tr : list call) : nat :=
  length (List.filter (is_emit cb) tr).

(** The add-, update- and remove-monitor emissions of a trace, in order. *)
Definition is_monitor_event (c : call) : bool :=
  is_emit onAddMonitor c || is_emit onUpdateMonitor c
  || is_emit onRemoveMonitor c.

Definition monitor_events (tr : list call) : list call :=
  List.filter is_monitor_event tr.

(** A wrapper "issues its request and then flushes": its trace ends with a
    request followed by [XFlush]. *)
Definition flushes_after_request (tr : list call) : bool :=
  match rev tr with
  | XFlush :: _ :: _ => true
  | _ => false
  end.

(** The windows handed to [nwm_add_window], in order, as witnessed by the
    add-window emissions. *)
Definition added_windows (tr : list call) : list Window :=
  flat_map (fun c => match c with
                     | nwm_emit onAddWindow (ev_window id _ _ _ _ _) => [id]
                     | _ => []
                     end) tr.

(** ** The passive key grabs held on the server *)

(** A grab is a key code, a modifier mask and the grab window. *)
Definition grab : Type := Z * Z * Window.

(** [XUngrabKey keycode modifiers w] releases [g]: same window, and the key
    code and the modifiers match or are the wildcards. *)
Definition released (keycode modifiers : Z) (w : Window) (g : grab) : bool :=
  (g.2 =? w)
  && ((keycode =? AnyKey) || (g.1.1 =? keycode))
  && ((modifiers =? AnyModifier) || (g.1.2 =? modifiers)).

Definition serve (g : gset grab) (c : call) : gset grab :=
  match c with
  | XGrabKey keycode modifiers w _ _ _ => {[ (keycode, modifiers, w) ]} ∪ g
  | XUngrabKey keycode modifiers w =>
      filter (fun x => released keycode modifiers w x = false) g
  | _ => g
  end.

(** The grab set after the server has processed a trace. *)
Definition grabs_after (tr : list call) (g : gset grab) : gset grab :=
  foldl serve g tr.

(** ** Concrete scenarios *)

Module Scenario.

Definition st0 : nwm_t :=
  {| root := 1; screen_width := 1024; screen_height := 768;
     total_monitors := 0; numlockmask := 0; selected := 0; keys := [] |}.

(** A server described by its windows, its multi-head reply and the stack
    contents found by nwm_update_window; text properties are unset, which
    [gettextprop] reports with an empty buffer. *)
Definition server
    (attrs : Window -> option XWindowAttributes)
    (transient : Window -> option Window)
    (children : list Window)
    (hint : Window -> option XClassHint)
    (active : bool) (screens : list XineramaScreenInfo)
    (klass0 instance0 : string) : xserver :=
  {| reply_XGetWindowAttributes := attrs;
     reply_XGetTransientForHint := transient;
     reply_XQueryTree := fun _ => Some children;
     reply_XGetClassHint := hint;
     reply_XInternAtom := fun name =>
       if String.eqb name "_NET_WM_STATE" then 300
       else if String.eqb name "_NET_WM_STATE_FULLSCREEN" then 301
       else if String.eqb name "_NET_WM_NAME" then 302
       else 303;
     reply_XKeysymToKeycode := fun k => k mod 256;
     reply_XKeycodeToKeysym := fun k => k;
     reply_XineramaIsActive := active;
     reply_XineramaQueryScreens := screens;
     reply_gettextprop := fun _ _ _ => (false, EmptyString);
     reply_getrootptr := None;
     reply_updatenumlockmask := 16;
     reply_malloc := fun _ => true;
     auto_name := EmptyString;
     auto_klass := klass0;
     auto_instance := instance0 |}.

Definition no_window : Window -> option XWindowAttributes := fun _ => None.
Definition no_hint {A} : Window -> option A := fun _ => None.

Definition viewable (override_redirect : bool) : XWindowAttributes :=
  {| wa_x := 0; wa_y := 0; wa_width := 80; wa_height := 50;
     wa_border_width := 1; wa_map_state := IsViewable;
     wa_override_redirect := override_redirect |}.

Definition screen (n x y w h : Z) : XineramaScreenInfo :=
  {| screen_number := n; x_org := x; y_org := y; width := w; height := h |}.

(** One ordinary top-level window, 42, that asks to be mapped. *)
Definition one_client : xserver :=
  server (fun w => if w =? 42 then Some (viewable false) else None)
         no_hint [42] no_hint false [] "" "".

(** Window 7 has neither a name nor a class hint. *)
Definition anonymous_client : xserver :=
  server (fun w => if w =? 7 then Some (viewable false) else None)
         no_hint [7] no_hint false [] "" "?".

(** Window 10 is a viewable override-redirect popup that names window 3 as
    the one it is transient for. *)
Definition popup : xserver :=
  server (fun w => if w =? 10 then Some (viewable true) else None)
         (fun w => if w =? 10 then Some 3 else None)
         [10] no_hint false [] "" "".

(** No multi-head extension: the query has nothing to report. *)
Definition single_head : xserver :=
  server no_window no_hint [] no_hint false [] "" "".

(** Three heads, the third one mirrored once. *)
Definition three_heads : xserver :=
  server no_window no_hint [] no_hint true
         [screen 0 0 0 800 600; screen 1 800 0 800 600;
          screen 2 1600 0 800 600; screen 3 1600 0 800 600] "" "".

(** One head. *)
Definition one_head : xserver :=
  server no_window no_hint [] no_hint true [screen 0 0 0 800 600] "" "".

Definition with_monitors (n : Z) : nwm_t := set_total_monitors n st0.

Definition two_keys : nwm_t :=
  set_keys [ {| keysym := 65293; mod_ := 64 |};
             {| keysym := 106; mod_ := 65 |} ] st0.

End Scenario.

(** ** Reading the metadata of a window *)

(** The name buffer after the two reads of the name property. *)
Definition name_read (X : xserver) (win : Window) : string :=
  match reply_gettextprop X win (reply_XInternAtom X "_NET_WM_NAME") (auto_name X) with
  | (true, name) => name
  | (false, name) => snd (reply_gettextprop X win XA_WM_NAME name)
  end.

(** The title that results from it. *)
Definition title_of (X : xserver) (win : Window) : string :=
  if is_empty (name_read X win) then broken else name_read X win.

(** ** The two passes of the startup scan *)

Definition viewable_window (wa : XWindowAttributes) : bool :=
  wa_map_state wa =? IsViewable.

(** The windows the first loop hands to [nwm_add_window]. *)
Definition first_pass_adds (X : xserver) (w : Window) : bool :=
  match reply_XGetWindowAttributes X w with
  | Some wa => negb (wa_override_redirect wa)
               && negb (status (reply_XGetTransientForHint X w))
               && viewable_window wa
  | None => false
  end.

(** The windows the second loop hands to [nwm_add_window]. *)
Definition second_pass_adds (X : xserver) (w : Window) : bool :=
  match reply_XGetWindowAttributes X w with
  | Some wa => status (reply_XGetTransientForHint X w) && viewable_window wa
  | None => false
  end.

(** ** Emissions of the monitor registry *)

(** The emissions of kind [cb] for the screens [l], numbered from [i]. *)
Fixpoint monitor_emissions (cb : callback_map) (i : Z)
    (l : list XineramaScreenInfo) : list call :=
  match l with
  | [] => []
  | u :: rest =>
      nwm_emit cb (ev_monitor i (x_org u) (y_org u) (width u) (height u))
      :: monitor_emissions cb (i + 1) rest
  end.

(** [k] remove-monitor emissions for the indices [i], [i+1], ... *)
Definition removals (i : Z) (k : nat) : list call :=
  map (fun j => nwm_emit onRemoveMonitor (ev_monitor_id (i + Z.of_nat j)))
      (seq 0 k).

(** ** What regrabbing asks for *)

(** The four lock-key combinations a binding is grabbed with. *)
Definition lock_combinations (numlock : Z) : list Z :=
  [0; LockMask; numlock; Z.lor numlock LockMask].

(** The grab requests for one binding. *)
Definition key_grabs (X : xserver) (numlock : Z) (w : Window) (k : Key)
  : list call :=
  map (fun m => XGrabKey (reply_XKeysymToKeycode X (keysym k))
                         (Z.lor (mod_ k) m) w true GrabModeAsync GrabModeAsync)
      (lock_combinations numlock).

(** The grabs these requests establish. *)
Definition wanted_grabs (X : xserver) (numlock : Z) (w : Window)
    (ks : list Key) : gset grab :=
  list_to_set
    (flat_map (fun k => map (fun m => (reply_XKeysymToKeycode X (keysym k),
                                        Z.lor (mod_ k) m, w))
                            (lock_combinations numlock)) ks).

Definition is_grab_request (c : call) : bool :=
  match c with XGrabKey _ _ _ _ _ _ => true | _ => false end.

(** Every call of a concrete trace is addressed to the window or is an
    emission. *)
Ltac addressed :=
  repeat (apply List.Forall_cons;
          [first [left; reflexivity | right; reflexivity]|]);
  apply List.Forall_nil.

(** Closes a disjunction of equations one of which holds by computation. *)
Ltac one_of := solve [reflexivity | left; reflexivity | right; one_of].

(** ** Start-up and forced termination *)

Definition DestroyAll : Z := 0.


Section Startup.
Context (X : xserver).


End Startup.

(** The two error handlers of x11_misc.cc. *)
Inductive error_handler := xerror | xerrordummy.

(** The calls of [nwm_kill_window]: those of the core trace and the three
    that only it makes. *)
Inductive kill_call :=
| Core (c : call)
| XSetErrorHandler (h : error_handler)
| XSetCloseDownMode (mode : Z)
| XKillClient (w : Window).

(** [nwm_kill_window]; [isprotodel] (x11_misc.cc) tells whether the client
    takes part in WM_DELETE_WINDOW.  The [nwm] struct is not touched. *)
Definition nwm_kill_window (X : xserver) (isprotodel : Window -> bool)
    (win : Window) : list kill_call :=
  if isprotodel win
  then
    [Core (XSendEvent win false NoEventMask
             (ClientMessage win (reply_XInternAtom X "WM_PROTOCOLS") 32
                (reply_XInternAtom X "WM_DELETE_WINDOW") CurrentTime))]
  else
    [Core XGrabServer;
     XSetErrorHandler xerrordummy;
     XSetCloseDownMode DestroyAll;
     XKillClient win;
     Core (XSync false);
     XSetErrorHandler xerror;
     Core XUngrabServer].

(** ** Further observations *)

Definition is_emission (c : call) : bool :=
  match c with nwm_emit _ _ => true | _ => false end.


(** What [nwm_update_selected_monitor] emits. *)
Definition pointer_probe (X : xserver) (s : nwm_t) : list call :=
  match reply_getrootptr X with
  | Some (x, y) => [nwm_emit onEnterNotify (ev_pointer (root s) x y)]
  | None => []
  end.

(** The calls the adoption of a window is made of. *)
Definition is_adoption_call (c : call) : bool :=
  match c with
  | nwm_emit onAddWindow _ | nwm_emit onUpdateWindow _ => true
  | XSendEvent _ _ _ (ConfigureNotify _ _ _ _ _ _ _ _ _) => true
  | XSelectInput _ _ | grabButtons _ false | XRaiseWindow _
  | XMoveResizeWindow _ _ _ _ _ | XMapWindow _ => true
  | _ => false
  end.

(** Whether the server is grabbed once it has processed a trace. *)
Definition grab_step (grabbed : bool) (c : call) : bool :=
  match c with
  | XGrabServer => true
  | XUngrabServer => false
  | _ => grabbed
  end.


(** The same over the calls of [nwm_kill_window], with the error handler
    in force. *)
Definition kill_step (st : bool * error_handler) (c : kill_call)
  : bool * error_handler :=
  match c with
  | Core c => (grab_step (fst st) c, snd st)
  | XSetErrorHandler h => (fst st, h)
  | _ => st
  end.

Definition after_kill (tr : list kill_call) (st : bool * error_handler)
  : bool * error_handler :=
  fold_left kill_step tr st.

(** The window a request is addressed to, if it names one. *)
Definition target (c : call) : option Window :=
  match c with
  | XSelectInput w _ | XUngrabKey _ _ w | XGrabKey _ _ w _ _ _
  | XMoveWindow w _ _ | XResizeWindow w _ _ | XMoveResizeWindow w _ _ _ _
  | XConfigureWindow w _ _ | XSendEvent w _ _ _ | XSetInputFocus w _ _
  | XRaiseWindow w | XMapWindow w | XChangeProperty w _ _ _ _ _
  | XUngrabButton _ _ w | grabButtons w _ | SendEvent w _ => Some w
  | _ => None
  end.

(** The geometry [isuniquegeom] compares. *)
Definition geom (u : XineramaScreenInfo) : Z * Z * Z * Z :=
  (x_org u, y_org u, width u, height u).

(** What the handlers leave alone in the [nwm] struct. *)
Definition same_bindings (s s' : nwm_t) : Prop :=
  root s' = root s /\ keys s' = keys s /\ numlockmask s' = numlockmask s.

(** A server on which no allocation succeeds. *)
Definition starved : xserver :=
  {| reply_XGetWindowAttributes := fun _ => None;
     reply_XGetTransientForHint := fun _ => None;
     reply_XQueryTree := fun _ => None;
     reply_XGetClassHint := fun _ => None;
     reply_XInternAtom := fun _ => 300;
     reply_XKeysymToKeycode := fun k => k mod 256;
     reply_XKeycodeToKeysym := fun k => k;
     reply_XineramaIsActive := true;
     reply_XineramaQueryScreens := [Scenario.screen 0 0 0 800 600];
     reply_gettextprop := fun _ _ _ => (false, EmptyString);
     reply_getrootptr := Some (10, 20);
     reply_updatenumlockmask := 16;
     reply_malloc := fun _ => false;
     auto_name := EmptyString;
     auto_klass := EmptyString;
     auto_instance := EmptyString |}.

(** * Properties *)

(** ** Laws of the effect layer *)

Lemma bind_ret_l {A B} (a : A) (f : A -> M B) (s : nwm_t) :
  bind (ret a) f s = f a s.
Proof. unfold bind, ret. destruct (f a s) as [[r s'] t]. reflexivity. Qed.

Lemma bind_ret_r {A} (m : M A) (s : nwm_t) : bind m ret s = m s.
Proof.
  unfold bind, ret. destruct (m s) as [[[a|c] s'] t]; [|reflexivity].
  rewrite app_nil_r. reflexivity.
Qed.

Lemma bind_assoc {A B C} (m : M A) (f : A -> M B) (g : B -> M C) (s : nwm_t) :
  bind (bind m f) g s = bind m (fun a => bind (f a) g) s.
Proof.
  unfold bind. destruct (m s) as [[[a|c] s1] t1]; [|reflexivity].
  destruct (f a s1) as [[[b|c] s2] t2]; [|reflexivity].
  destruct (g b s2) as [[r s3] t3]. rewrite app_assoc. reflexivity.
Qed.

(** An [exit] cuts the rest of the run short. *)
Lemma bind_exit {A B} (code : Z) (f : A -> M B) (s : nwm_t) :
  bind (exit code) f s = (Exit code, s, []).
Proof. reflexivity. Qed.

Lemma bind_run {A B} (m : M A) (f : A -> M B) (s s1 : nwm_t) (a : A)
    (t1 : list call) :
  m s = (Ok a, s1, t1) ->
  bind m f s = (let '(r, s2, t2) := f a s1 in (r, s2, t1 ++ t2)).
Proof. intros E. unfold bind. rewrite E. reflexivity. Qed.

(** ** Command wrappers *)

Section Wrappers.
Variables (win : Window) (s : nwm_t).

Lemma nwm_move_window_run (x y : Z) :
  nwm_move_window win x y s = (Ok tt, s, [XMoveWindow win x y; XFlush]).
Proof. reflexivity. Qed.

Lemma nwm_resize_window_run (w h : Z) :
  nwm_resize_window win w h s = (Ok tt, s, [XResizeWindow win w h; XFlush]).
Proof. reflexivity. Qed.

Lemma nwm_focus_window_run (X : xserver) :
  nwm_focus_window X win s =
  (Ok tt, set_selected win s,
   [grabButtons win true;
    XSetInputFocus win RevertToPointerRoot CurrentTime;
    SendEvent win (reply_XInternAtom X "WM_TAKE_FOCUS");
    XFlush]).
Proof. reflexivity. Qed.

End Wrappers.

(** C8, as stated, fails: the trace of [nwm_configure_window] does not end
    with a flush (and neither does that of [nwm_notify_window]). *)
Lemma configure_window_does_not_flush :
  flushes_after_request
    (trace_of (nwm_configure_window 7 0 0 640 480 1 0 0 15 Scenario.st0)) = false
  /\ flushes_after_request
    (trace_of (nwm_notify_window 7 0 0 640 480 1 0 0 15 Scenario.st0)) = false.
Proof. split; reflexivity. Qed.

(** C8 (amended): move and resize issue their request and then flush the
    connection; configure issues exactly one [XConfigureWindow] and
    notify_configure exactly one [XSendEvent] of a synthetic configure
    notification, and both return without flushing.  None of the four touches
    the local state. *)
Theorem wrappers_requests (win : Window) (x y w h border sibling stack_mode mask : Z)
    (s : nwm_t) :
  nwm_move_window win x y s = (Ok tt, s, [XMoveWindow win x y; XFlush])
  /\ nwm_resize_window win w h s = (Ok tt, s, [XResizeWindow win w h; XFlush])
  /\ flushes_after_request (trace_of (nwm_move_window win x y s)) = true
  /\ flushes_after_request (trace_of (nwm_resize_window win w h s)) = true
  /\ nwm_configure_window win x y w h border sibling stack_mode mask s =
     (Ok tt, s,
      [XConfigureWindow win mask
         {| wc_x := x; wc_y := y; wc_width := w; wc_height := h;
            wc_border_width := border; wc_sibling := sibling;
            wc_stack_mode := stack_mode |}])
  /\ nwm_notify_window win x y w h border sibling stack_mode mask s =
     (Ok tt, s,
      [XSendEvent win false StructureNotifyMask
         (ConfigureNotify win win x y w h border None_ false)])
  /\ ~ In XFlush (trace_of (nwm_configure_window win x y w h border sibling
                              stack_mode mask s))
  /\ ~ In XFlush (trace_of (nwm_notify_window win x y w h border sibling
                              stack_mode mask s)).
Proof.
  repeat split; try reflexivity.
  - simpl. intros [H|[]]. discriminate H.
  - simpl. intros [H|[]]. discriminate H.
Qed.

(** ** Removing a window *)

Lemma nwm_remove_window_run (X : xserver) (win : Window) (s : nwm_t) :
  nwm_remove_window X win false s =
  (Ok tt, set_selected (root s) s,
   [nwm_emit onRemoveWindow (ev_window_id win);
    XGrabServer; XUngrabButton AnyButton AnyModifier win; XSync false;
    XUngrabServer;
    grabButtons (root s) true;
    XSetInputFocus (root s) RevertToPointerRoot CurrentTime;
    SendEvent (root s) (reply_XInternAtom X "WM_TAKE_FOCUS");
    XFlush;
    nwm_emit onRearrange ev_null]).
Proof. reflexivity. Qed.

(** C6: after [nwm_remove_window win False] the selected window is the root
    window, and that call has emitted exactly one rearrange event. *)
Theorem remove_window_selects_root (X : xserver) (win : Window) (s : nwm_t) :
  let r := nwm_remove_window X win false s in
  outcome r = Ok tt
  /\ selected (state_of r) = root (state_of r)
  /\ root (state_of r) = root s
  /\ count_emits onRearrange (trace_of r) = 1%nat.
Proof. rewrite nwm_remove_window_run. repeat split. Qed.

(** The unmap handler is that call. *)
Lemma event_unmapnotify_run (X : xserver) (win : Window) (s : nwm_t) :
  handler X (UnmapNotify win) s = nwm_remove_window X win false s.
Proof. reflexivity. Qed.

(** ** Client messages *)

Lemma event_clientmessage_fullscreen (X : xserver) (window : Window)
    (message_type : Atom) (l0 l1 : Z) (s : nwm_t) :
  message_type = reply_XInternAtom X "_NET_WM_STATE" ->
  to_unsigned_long l1 = reply_XInternAtom X "_NET_WM_STATE_FULLSCREEN" ->
  event_clientmessage X window message_type l0 l1 s =
  (Ok tt, s,
   if l0 =? 0
   then [XChangeProperty window message_type XA_ATOM 32 PropModeReplace [];
         nwm_emit onFullscreen (ev_window_fullscreen window 0)]
   else [XChangeProperty window message_type XA_ATOM 32 PropModeReplace
           [to_unsigned_long l1];
         XRaiseWindow window;
         nwm_emit onFullscreen (ev_window_fullscreen window 1)]).
Proof.
  intros -> H. unfold event_clientmessage. rewrite H, !Z.eqb_refl. simpl.
  destruct (l0 =? 0); reflexivity.
Qed.

(** Any other client message falls through the test. *)
Lemma event_clientmessage_other (X : xserver) (window : Window)
    (message_type : Atom) (l0 l1 : Z) (s : nwm_t) :
  message_type <> reply_XInternAtom X "_NET_WM_STATE"
  \/ to_unsigned_long l1 <> reply_XInternAtom X "_NET_WM_STATE_FULLSCREEN" ->
  event_clientmessage X window message_type l0 l1 s = (Ok tt, s, []).
Proof.
  intros H. unfold event_clientmessage.
  destruct (Z.eqb_spec message_type (reply_XInternAtom X "_NET_WM_STATE"));
    destruct (Z.eqb_spec (to_unsigned_long l1)
                (reply_XInternAtom X "_NET_WM_STATE_FULLSCREEN"));
    simpl; try reflexivity.
  destruct H; contradiction.
Qed.

(** C10: a client message whose type is not [_NET_WM_STATE], or whose second
    data word is not the fullscreen atom, makes the handler emit nothing and
    issue no request (no property change, no raise), and leaves the local
    state as it was. *)
Theorem event_clientmessage_frame (X : xserver) (window : Window)
    (message_type : Atom) (format l0 l1 : Z) (s : nwm_t) :
  message_type <> reply_XInternAtom X "_NET_WM_STATE"
  \/ to_unsigned_long l1 <> reply_XInternAtom X "_NET_WM_STATE_FULLSCREEN" ->
  let r := handler X (ClientMessage window message_type format l0 l1) s in
  outcome r = Ok tt /\ state_of r = s /\ trace_of r = [].
Proof.
  intros H r. subst r. cbn [handler].
  rewrite event_clientmessage_other by exact H. repeat split.
Qed.

Lemma event_clientmessage_frame_witness :
  let X := Scenario.one_client in
  let r := handler X (ClientMessage 42 300 32 1 999) Scenario.st0 in
  (300 <> reply_XInternAtom X "_NET_WM_STATE"
   \/ to_unsigned_long 999 <> reply_XInternAtom X "_NET_WM_STATE_FULLSCREEN")
  /\ outcome r = Ok tt /\ state_of r = Scenario.st0 /\ trace_of r = [].
Proof.
  intros X r.
  assert (H : 300 <> reply_XInternAtom X "_NET_WM_STATE"
              \/ to_unsigned_long 999
                 <> reply_XInternAtom X "_NET_WM_STATE_FULLSCREEN").
  { right. vm_compute. discriminate. }
  split; [exact H|].
  exact (event_clientmessage_frame X 42 300 32 1 999 Scenario.st0 H).
Defined.

(** Any effect of the handler betrays a fullscreen-state message. *)
Lemma event_clientmessage_only_fullscreen (X : xserver) (window : Window)
    (message_type : Atom) (l0 l1 : Z) (s : nwm_t) :
  trace_of (event_clientmessage X window message_type l0 l1 s) <> [] ->
  message_type = reply_XInternAtom X "_NET_WM_STATE"
  /\ to_unsigned_long l1 = reply_XInternAtom X "_NET_WM_STATE_FULLSCREEN".
Proof.
  intros H.
  destruct (Z.eq_dec message_type (reply_XInternAtom X "_NET_WM_STATE")) as [e1|n1];
    destruct (Z.eq_dec (to_unsigned_long l1)
                (reply_XInternAtom X "_NET_WM_STATE_FULLSCREEN")) as [e2|n2];
    try (split; assumption);
    exfalso; apply H; rewrite event_clientmessage_other; auto.
Qed.

(** ** Map requests *)


(** C1: window 42 has readable attributes, is not override-redirect and has
    never been added, yet its map request neither adds it nor emits a
    rearrange event. *)
Theorem maprequest_new_window_not_added :
  (exists wa, reply_XGetWindowAttributes Scenario.one_client 42 = Some wa
              /\ wa_override_redirect wa = false)
  /\ handler Scenario.one_client (MapRequest 42) Scenario.st0
     = (Ok tt, Scenario.st0, [])
  /\ added_windows
       (trace_of (handler Scenario.one_client (MapRequest 42) Scenario.st0)) = []
  /\ count_emits onRearrange
       (trace_of (handler Scenario.one_client (MapRequest 42) Scenario.st0)) = 0%nat.
Proof.
  split; [eexists; split; reflexivity|].
  repeat split.
Qed.

(** ** Window metadata *)

Section Metadata.
Context (X : xserver) (win : Window) (s : nwm_t).

Lemma title_of_nonempty : title_of X win <> EmptyString.
Proof.
  unfold title_of. destruct (name_read X win) eqn:E; simpl; [discriminate|].
  discriminate.
Qed.

Lemma nwm_update_window_run :
  nwm_update_window X win s =
  (Ok tt, s,
   [nwm_emit onUpdateWindow
      (match reply_XGetClassHint X win with
       | Some ch =>
           ev_window_title win (title_of X win)
             (strncpy_255 (match res_name ch with Some n => n | None => broken end))
             (strncpy_255 (match res_class ch with Some c => c | None => broken end))
       | None =>
           ev_window_title win (title_of X win) (auto_instance X) (auto_klass X)
       end)]).
Proof.
  unfold nwm_update_window, title_of, name_read.
  destruct (reply_gettextprop X win (reply_XInternAtom X "_NET_WM_NAME") (auto_name X))
    as [[] name]; destruct (reply_XGetClassHint X win); reflexivity.
Qed.

(** An empty name buffer is replaced by the placeholder. *)
Lemma title_placeholder : name_read X win = EmptyString -> title_of X win = broken.
Proof. unfold title_of. intros ->. reflexivity. Qed.

(** A class hint whose two strings are absent yields the placeholder
    twice. *)
Lemma class_placeholder :
  reply_XGetClassHint X win = Some {| res_name := None; res_class := None |} ->
  trace_of (nwm_update_window X win s) =
  [nwm_emit onUpdateWindow (ev_window_title win (title_of X win) broken broken)].
Proof. intros H. rewrite nwm_update_window_run, H. reflexivity. Qed.

(** Without a class hint, [klass] and [instance] are never written: the
    event carries whatever the two arrays held on entry. *)
Lemma class_unassigned :
  reply_XGetClassHint X win = None ->
  trace_of (nwm_update_window X win s) =
  [nwm_emit onUpdateWindow
     (ev_window_title win (title_of X win) (auto_instance X) (auto_klass X))].
Proof. intros H. rewrite nwm_update_window_run, H. reflexivity. Qed.

End Metadata.

(** C3: window 7 has no readable name and no class hint.  The title of the
    emitted event is the placeholder, but class and instance are the
    contents of the uninitialised arrays (here the empty string and "?"),
    not the placeholder. *)
Theorem update_window_without_class_hint :
  reply_XGetClassHint Scenario.anonymous_client 7 = None
  /\ name_read Scenario.anonymous_client 7 = EmptyString
  /\ nwm_update_window Scenario.anonymous_client 7 Scenario.st0
     = (Ok tt, Scenario.st0,
        [nwm_emit onUpdateWindow (ev_window_title 7 "broken" "?" "")]).
Proof. repeat split. Qed.

(** ** Startup scan *)

Lemma nwm_add_window_run (X : xserver) (win : Window) (wa : XWindowAttributes)
    (s : nwm_t) :
  let trans := match reply_XGetTransientForHint X win with
               | Some t => t
               | None => None_
               end in
  exists upd,
    trace_of (nwm_update_window X win s) = [nwm_emit onUpdateWindow upd]
    /\ nwm_add_window X win wa s =
       (Ok tt, s,
        [nwm_emit onAddWindow
           (ev_window win (wa_x wa) (wa_y wa) (wa_height wa) (wa_width wa)
                      (negb (trans =? None_)));
         nwm_emit onUpdateWindow upd;
         XSendEvent win false StructureNotifyMask
           (ConfigureNotify win win (wa_x wa) (wa_y wa) (wa_width wa)
              (wa_height wa) (wa_border_width wa) None_ false);
         XSelectInput win
           (Z.lor (Z.lor (Z.lor EnterWindowMask FocusChangeMask)
                         PropertyChangeMask) StructureNotifyMask);
         grabButtons win false]
        ++ (if negb (trans =? None_) then [XRaiseWindow win] else [])
        ++ [XMoveResizeWindow win (wa_x wa) (wa_y wa) (wa_width wa) (wa_height wa);
            XMapWindow win]).
Proof.
  intros trans. unfold nwm_add_window. fold trans.
  eexists. split; [rewrite nwm_update_window_run; reflexivity|].
  unfold bind at 1. simpl. unfold bind at 1.
  rewrite nwm_update_window_run. simpl.
  destruct (negb (trans =? None_)); reflexivity.
Qed.

Lemma nwm_add_window_added (X : xserver) (win : Window) (wa : XWindowAttributes)
    (s : nwm_t) :
  exists tr, nwm_add_window X win wa s = (Ok tt, s, tr)
             /\ added_windows tr = [win].
Proof.
  destruct (nwm_add_window_run X win wa s) as (upd & _ & E).
  eexists. split; [exact E|].
  simpl. destruct upd; simpl;
    destruct (negb (_ =? None_)); reflexivity.
Qed.

Lemma scan_first_pass_added (X : xserver) (w : Window) (s : nwm_t) :
  exists tr, scan_first_pass X w s = (Ok tt, s, tr)
             /\ added_windows tr = if first_pass_adds X w then [w] else [].
Proof.
  unfold scan_first_pass, first_pass_adds, viewable_window.
  destruct (reply_XGetWindowAttributes X w) as [wa|]; [|eexists; split; reflexivity].
  destruct (wa_override_redirect wa); simpl; [eexists; split; reflexivity|].
  destruct (status (reply_XGetTransientForHint X w)); simpl;
    [eexists; split; reflexivity|].
  destruct (wa_map_state wa =? IsViewable); simpl;
    [apply nwm_add_window_added | eexists; split; reflexivity].
Qed.

Lemma scan_second_pass_added (X : xserver) (w : Window) (s : nwm_t) :
  exists tr, scan_second_pass X w s = (Ok tt, s, tr)
             /\ added_windows tr = if second_pass_adds X w then [w] else [].
Proof.
  unfold scan_second_pass, second_pass_adds, viewable_window.
  destruct (reply_XGetWindowAttributes X w) as [wa|]; [|eexists; split; reflexivity].
  destruct (status (reply_XGetTransientForHint X w)); simpl;
    [|eexists; split; reflexivity].
  destruct (wa_map_state wa =? IsViewable); simpl;
    [apply nwm_add_window_added | eexists; split; reflexivity].
Qed.

Lemma added_windows_app (t1 t2 : list call) :
  added_windows (t1 ++ t2) = added_windows t1 ++ added_windows t2.
Proof. apply flat_map_app. Qed.

(** A loop whose body adds [w] exactly when [adds w] adds the windows that
    pass the test, in the order of the list, and runs to its end. *)
Lemma for_each_added (body : Window -> M unit) (adds : Window -> bool) :
  (forall w s, exists tr, body w s = (Ok tt, s, tr)
                          /\ added_windows tr = if adds w then [w] else []) ->
  forall wins s, exists tr,
    for_each wins body s = (Ok tt, s, tr)
    /\ added_windows tr = List.filter adds wins.
Proof.
  intros Hbody wins s. induction wins as [|w wins IH]; simpl.
  - eexists. split; reflexivity.
  - destruct (Hbody w s) as (t1 & E1 & A1).
    destruct IH as (t2 & E2 & A2).
    exists (t1 ++ t2). unfold bind. rewrite E1, E2. split; [reflexivity|].
    rewrite added_windows_app, A1, A2. destruct (adds w); reflexivity.
Qed.

(** The scan first adds every window that passes the test of the first
    loop, then every window that passes the test of the second loop. *)
Lemma nwm_scan_windows_added (X : xserver) (s : nwm_t) (wins : list Window) :
  reply_XQueryTree X (root s) = Some wins ->
  exists tr,
    nwm_scan_windows X s = (Ok tt, s, tr)
    /\ added_windows tr =
       List.filter (first_pass_adds X) wins
       ++ List.filter (second_pass_adds X) wins.
Proof.
  intros Htree. unfold nwm_scan_windows.
  destruct (for_each_added _ _ (scan_first_pass_added X) wins s) as (t1 & E1 & A1).
  destruct (for_each_added _ _ (scan_second_pass_added X) wins s) as (t2 & E2 & A2).
  exists (t1 ++ t2). unfold bind at 1. simpl. rewrite Htree.
  unfold bind. rewrite E1, E2. split; [reflexivity|].
  rewrite added_windows_app, A1, A2. reflexivity.
Qed.

(** The first loop never adds an override-redirect window. *)
Lemma first_pass_skips_override_redirect (X : xserver) (w : Window)
    (wa : XWindowAttributes) :
  reply_XGetWindowAttributes X w = Some wa ->
  wa_override_redirect wa = true ->
  first_pass_adds X w = false.
Proof. intros H1 H2. unfold first_pass_adds. rewrite H1, H2. reflexivity. Qed.

(** The second loop does not look at the override-redirect flag. *)
Lemma second_pass_ignores_override_redirect (X : xserver) (w : Window)
    (wa : XWindowAttributes) :
  reply_XGetWindowAttributes X w = Some wa ->
  second_pass_adds X w =
  status (reply_XGetTransientForHint X w) && viewable_window wa.
Proof. intros H. unfold second_pass_adds. rewrite H. reflexivity. Qed.

(** C7: window 10 is override-redirect, transient and viewable; the first
    loop skips it and the second loop adds it. *)
Theorem scan_adds_override_redirect_transient :
  (exists wa, reply_XGetWindowAttributes Scenario.popup 10 = Some wa
              /\ wa_override_redirect wa = true)
  /\ reply_XQueryTree Scenario.popup (root Scenario.st0) = Some [10]
  /\ trace_of (for_each [10] (scan_first_pass Scenario.popup) Scenario.st0) = []
  /\ added_windows (trace_of (nwm_scan_windows Scenario.popup Scenario.st0))
     = [10]
  /\ In (XMapWindow 10) (trace_of (nwm_scan_windows Scenario.popup Scenario.st0)).
Proof.
  split; [eexists; split; reflexivity|].
  repeat split. vm_compute. tauto.
Qed.

(** ** Monitor registry *)

Lemma set_total_monitors_same (s : nwm_t) :
  set_total_monitors (total_monitors s) s = s.
Proof. destruct s; reflexivity. Qed.

Lemma set_total_monitors_twice (a b : Z) (s : nwm_t) :
  set_total_monitors a (set_total_monitors b s) = set_total_monitors a s.
Proof. reflexivity. Qed.

Lemma monitor_events_app (t1 t2 : list call) :
  monitor_events (t1 ++ t2) = monitor_events t1 ++ monitor_events t2.
Proof. apply List.filter_app. Qed.

Lemma monitor_events_emissions (cb : callback_map) (i : Z)
    (l : list XineramaScreenInfo) :
  cb = onAddMonitor \/ cb = onUpdateMonitor ->
  monitor_events (monitor_emissions cb i l) = monitor_emissions cb i l.
Proof.
  intros Hcb. revert i. induction l as [|u l IH]; intros i; [reflexivity|].
  simpl. unfold monitor_events in *. simpl.
  destruct Hcb as [-> | ->]; simpl; rewrite IH; reflexivity.
Qed.

Lemma monitor_events_removals (i : Z) (k : nat) :
  monitor_events (removals i k) = removals i k.
Proof.
  unfold removals, monitor_events. induction (seq 0 k) as [|j l IH]; [reflexivity|].
  simpl. rewrite IH. reflexivity.
Qed.

Lemma removals_S (i : Z) (k : nat) :
  removals i (S k) = nwm_emit onRemoveMonitor (ev_monitor_id i) :: removals (i + 1) k.
Proof.
  unfold removals. simpl. rewrite Z.add_0_r. f_equal.
  rewrite <- seq_shift, map_map. apply map_ext. intros j.
  do 2 f_equal. lia.
Qed.

Section Monitors.
Context (X : xserver).

Lemma nwm_update_selected_monitor_run (s : nwm_t) :
  exists tr, nwm_update_selected_monitor X s = (Ok tt, s, tr)
             /\ monitor_events tr = [].
Proof.
  unfold nwm_update_selected_monitor.
  destruct (reply_getrootptr X) as [[x y]|]; eexists; split; reflexivity.
Qed.

(** Past the known count every screen is announced as new, and counted. *)
Lemma emit_monitors_add (unique : list XineramaScreenInfo) :
  forall (i : Z) (s : nwm_t),
    total_monitors s <= i ->
    emit_monitors i unique s =
    (Ok tt,
     set_total_monitors (total_monitors s + Z.of_nat (length unique)) s,
     monitor_emissions onAddMonitor i unique).
Proof.
  induction unique as [|u rest IH]; intros i s Hle; simpl.
  - rewrite Z.add_0_r, set_total_monitors_same. reflexivity.
  - unfold bind at 1. simpl. unfold bind at 1.
    assert (E : (i >=? total_monitors s) = true) by lia.
    rewrite E. unfold bind at 1. simpl.
    rewrite IH by (simpl; lia). simpl.
    rewrite set_total_monitors_twice.
    replace (total_monitors s + 1 + Z.of_nat (length rest))
      with (total_monitors s + Z.of_nat (S (length rest))) by lia.
    reflexivity.
Qed.

(** Below the known count every screen is announced as an update. *)
Lemma emit_monitors_update (known : list XineramaScreenInfo) :
  forall (i : Z) (s : nwm_t),
    i + Z.of_nat (length known) <= total_monitors s ->
    emit_monitors i known s =
    (Ok tt, s, monitor_emissions onUpdateMonitor i known).
Proof.
  induction known as [|u rest IH]; intros i s Hle; simpl; [reflexivity|].
  unfold bind at 1. simpl. unfold bind at 1.
  assert (E : (i >=? total_monitors s) = false) by (simpl in Hle; lia).
  rewrite E. simpl. rewrite IH by (simpl in Hle; lia). reflexivity.
Qed.

(** The growing branch: with [n] monitors still to refresh at index [i] and
    at least as many screens left, the next [n] screens are updates, the
    others additions, in ascending index order, and the record ends at the
    number of screens found. *)
Lemma emit_monitors_from (n : nat) :
  forall (unique : list XineramaScreenInfo) (i : Z) (s : nwm_t),
    total_monitors s = i + Z.of_nat n ->
    (n <= length unique)%nat ->
    emit_monitors i unique s =
    (Ok tt,
     set_total_monitors (i + Z.of_nat (length unique)) s,
     monitor_emissions onUpdateMonitor i (firstn n unique)
     ++ monitor_emissions onAddMonitor (i + Z.of_nat n) (skipn n unique)).
Proof.
  induction n as [|n IH]; intros unique i s Ht Hle.
  - rewrite emit_monitors_add by lia. simpl.
    rewrite Ht, !Z.add_0_r. reflexivity.
  - destruct unique as [|u rest]; [simpl in Hle; lia|].
    cbn [emit_monitors firstn skipn monitor_emissions app].
    unfold bind at 1. cbn [get].
    assert (E : (i >=? total_monitors s) = false) by lia.
    rewrite E. unfold bind at 1. cbn [do_].
    rewrite (IH rest (i + 1) s) by (simpl in Hle; lia).
    cbn [app length].
    replace (i + 1 + Z.of_nat (length rest))
      with (i + Z.of_nat (S (length rest))) by lia.
    replace (i + 1 + Z.of_nat n) with (i + Z.of_nat (S n)) by lia.
    reflexivity.
Qed.

Lemma emit_monitors_grow (unique : list XineramaScreenInfo) (known : nat)
    (s : nwm_t) :
  total_monitors s = Z.of_nat known ->
  (known <= length unique)%nat ->
  emit_monitors 0 unique s =
  (Ok tt,
   set_total_monitors (Z.of_nat (length unique)) s,
   monitor_emissions onUpdateMonitor 0 (firstn known unique)
   ++ monitor_emissions onAddMonitor (Z.of_nat known) (skipn known unique)).
Proof.
  intros Ht Hle. rewrite (emit_monitors_from known) by (assumption || lia).
  reflexivity.
Qed.

(** The shrinking branch.  The loop removes [k] monitors, for the indices
    [i], [i+1], ..., and stops as soon as its index has caught up with the
    count it decrements; any [fuel] of at least the distance will do. *)
Lemma remove_monitors_run (fuel : nat) :
  forall (i : Z) (s : nwm_t),
    total_monitors s - i <= Z.of_nat fuel ->
    exists k : nat,
      remove_monitors fuel i s =
      (Ok tt, set_total_monitors (total_monitors s - Z.of_nat k) s, removals i k)
      /\ (total_monitors s <= i -> k = O)
      /\ (i < total_monitors s ->
          total_monitors s - i <= 2 * Z.of_nat k <= total_monitors s - i + 1).
Proof.
  induction fuel as [|fuel IH]; intros i s Hfuel.
  - exists O. simpl. rewrite Z.sub_0_r, set_total_monitors_same.
    repeat split; lia.
  - simpl. unfold bind at 1. simpl.
    destruct (Z.ltb_spec i (total_monitors s)) as [Hlt|Hge].
    + destruct (IH (i + 1) (set_total_monitors (total_monitors s - 1) s))
        as (k & E & Hz & Hb); [simpl; lia|].
      exists (S k). unfold bind at 1. simpl. unfold bind at 1. simpl.
      rewrite E. simpl. rewrite removals_S, set_total_monitors_twice.
      replace (total_monitors s - 1 - Z.of_nat k)
        with (total_monitors s - Z.of_nat (S k)) by lia.
      split; [reflexivity|].
      split; [lia|]. intros _.
      change (total_monitors (set_total_monitors (total_monitors s - 1) s))
        with (total_monitors s - 1) in Hz, Hb.
      destruct (Z.le_gt_cases (total_monitors s - 1) (i + 1)) as [Hstop|Hmore].
      * rewrite (Hz Hstop). lia.
      * specialize (Hb ltac:(lia)). lia.
    + exists O. simpl. rewrite Z.sub_0_r, set_total_monitors_same.
      repeat split; lia.
Qed.

(** The rescan once the synthetic-monitor branch is out of the way. *)
Lemma nwm_scan_monitors_query (s : nwm_t) :
  negb (reply_XineramaIsActive X) && (total_monitors s =? 0) = false ->
  reply_malloc X (sizeof_XineramaScreenInfo
                  * Z.of_nat (length (reply_XineramaQueryScreens X))) = true ->
  nwm_scan_monitors X s =
  (let unique := collect_unique [] (reply_XineramaQueryScreens X) in
   let nn := Z.of_nat (length unique) in
   (if total_monitors s <=? nn
    then emit_monitors 0 unique
    else remove_monitors (Z.to_nat (total_monitors s - nn)) nn) ;;
   nwm_update_selected_monitor X) s.
Proof.
  intros Hbranch Hmalloc. unfold nwm_scan_monitors.
  unfold bind at 1. cbn [get]. rewrite Hbranch, Hmalloc. cbn [negb].
  unfold bind at 1. cbn [get].
  set (m := (_ ;; nwm_update_selected_monitor X)).
  destruct (m s) as [[r s'] t]. reflexivity.
Qed.

(** The first rescan without the extension registers the synthetic
    monitor. *)
Lemma nwm_scan_monitors_synthetic (s : nwm_t) :
  reply_XineramaIsActive X = false ->
  total_monitors s = 0 ->
  outcome (nwm_scan_monitors X s) = Ok tt
  /\ total_monitors (state_of (nwm_scan_monitors X s)) = 1
  /\ monitor_events (trace_of (nwm_scan_monitors X s)) =
     [nwm_emit onAddMonitor
        (ev_monitor 0 0 0 (screen_width s) (screen_height s))].
Proof.
  intros Hx Ht.
  destruct (nwm_update_selected_monitor_run
              (set_total_monitors (total_monitors s + 1) s)) as (tr & E & Hm).
  assert (Hrun : nwm_scan_monitors X s =
                 (Ok tt, set_total_monitors (total_monitors s + 1) s,
                  nwm_emit onAddMonitor
                    (ev_monitor 0 0 0 (screen_width s) (screen_height s)) :: tr)).
  { unfold nwm_scan_monitors, bind, get, modify, do_.
    assert (Hz : (total_monitors s =? 0) = true) by lia.
    rewrite Hx, Hz. cbn [negb andb]. rewrite E. reflexivity. }
  rewrite Hrun. unfold outcome, state_of, trace_of. cbn [fst snd].
  rewrite Ht. repeat split.
  unfold monitor_events in *. cbn. rewrite Hm. reflexivity.
Qed.

(** A later rescan without the extension is never silent: with one monitor
    on record the code goes on to query the extension, and whatever the
    reply, it either leaves through [exit] or emits a monitor event. *)
Lemma nwm_scan_monitors_inactive_again (s : nwm_t) :
  reply_XineramaIsActive X = false ->
  total_monitors s = 1 ->
  outcome (nwm_scan_monitors X s) = Exit (-1)
  \/ monitor_events (trace_of (nwm_scan_monitors X s)) <> [].
Proof.
  intros Hx Ht.
  destruct (reply_malloc X (sizeof_XineramaScreenInfo
              * Z.of_nat (length (reply_XineramaQueryScreens X)))) eqn:Hm.
  - right. rewrite nwm_scan_monitors_query; [|rewrite Ht; apply andb_false_r|exact Hm].
    cbv zeta.
    set (unique := collect_unique [] (reply_XineramaQueryScreens X)).
    destruct (Z.leb_spec (total_monitors s) (Z.of_nat (length unique))) as [Hle|Hgt].
    + rewrite (bind_run _ _ _ _ _ _ (emit_monitors_grow unique 1 s Ht ltac:(lia))).
      destruct (nwm_update_selected_monitor_run
                  (set_total_monitors (Z.of_nat (length unique)) s)) as (tr & E & _).
      rewrite E. unfold trace_of. cbn [snd].
      destruct unique as [|u rest]; [simpl in Hle; lia|]. discriminate.
    + destruct (remove_monitors_run
                  (Z.to_nat (total_monitors s - Z.of_nat (length unique)))
                  (Z.of_nat (length unique)) s ltac:(lia)) as (k & E & _ & Hb).
      rewrite (bind_run _ _ _ _ _ _ E).
      destruct (nwm_update_selected_monitor_run
                  (set_total_monitors (total_monitors s - Z.of_nat k) s))
        as (tr & E' & _).
      rewrite E'. unfold trace_of. cbn [snd].
      destruct k as [|k]; [lia|]. rewrite removals_S. discriminate.
  - left. unfold nwm_scan_monitors, bind, get.
    assert (Hz : (total_monitors s =? 0) = false) by lia.
    rewrite Hx, Hz, Hm. reflexivity.
Qed.

End Monitors.

(** C4: with one monitor on record and three distinct geometries found, the
    rescan emits an update for index 0, then an addition for index 1, then
    an addition for index 2, and nothing else about monitors; it leaves three
    monitors on record. *)
Theorem rescan_one_to_three (X : xserver) (s : nwm_t)
    (a b c : XineramaScreenInfo) :
  total_monitors s = 1 ->
  collect_unique [] (reply_XineramaQueryScreens X) = [a; b; c] ->
  reply_malloc X (sizeof_XineramaScreenInfo
                  * Z.of_nat (length (reply_XineramaQueryScreens X))) = true ->
  let r := nwm_scan_monitors X s in
  outcome r = Ok tt
  /\ monitor_events (trace_of r) =
     [nwm_emit onUpdateMonitor (ev_monitor 0 (x_org a) (y_org a) (width a) (height a));
      nwm_emit onAddMonitor (ev_monitor 1 (x_org b) (y_org b) (width b) (height b));
      nwm_emit onAddMonitor (ev_monitor 2 (x_org c) (y_org c) (width c) (height c))]
  /\ count_emits onAddMonitor (trace_of r) = 2%nat
  /\ count_emits onUpdateMonitor (trace_of r) = 1%nat
  /\ count_emits onRemoveMonitor (trace_of r) = 0%nat
  /\ total_monitors (state_of r) = 3.
Proof.
  intros Ht Hu Hm r. subst r.
  rewrite nwm_scan_monitors_query; [|rewrite Ht; apply andb_false_r|exact Hm].
  cbv zeta. rewrite Hu, Ht. cbn [length Z.of_nat Z.leb Z.compare Pos.of_succ_nat
    Pos.compare Pos.compare_cont Pos.succ].
  rewrite (bind_run _ _ _ _ _ _ (emit_monitors_grow [a; b; c] 1 s Ht ltac:(simpl; lia))).
  unfold nwm_update_selected_monitor.
  destruct (reply_getrootptr X) as [[x y]|]; repeat split.
Qed.

Lemma rescan_one_to_three_witness :
  let X := Scenario.three_heads in
  let s := Scenario.with_monitors 1 in
  let r := nwm_scan_monitors X s in
  total_monitors s = 1
  /\ collect_unique [] (reply_XineramaQueryScreens X) =
     [Scenario.screen 0 0 0 800 600; Scenario.screen 1 800 0 800 600;
      Scenario.screen 2 1600 0 800 600]
  /\ reply_malloc X (sizeof_XineramaScreenInfo
                     * Z.of_nat (length (reply_XineramaQueryScreens X))) = true
  /\ outcome r = Ok tt
  /\ monitor_events (trace_of r) =
     [nwm_emit onUpdateMonitor (ev_monitor 0 0 0 800 600);
      nwm_emit onAddMonitor (ev_monitor 1 800 0 800 600);
      nwm_emit onAddMonitor (ev_monitor 2 1600 0 800 600)]
  /\ count_emits onAddMonitor (trace_of r) = 2%nat
  /\ count_emits onUpdateMonitor (trace_of r) = 1%nat
  /\ count_emits onRemoveMonitor (trace_of r) = 0%nat
  /\ total_monitors (state_of r) = 3.
Proof.
  intros X s r.
  split; [reflexivity|]. split; [reflexivity|]. split; [reflexivity|].
  exact (rescan_one_to_three X s
           (Scenario.screen 0 0 0 800 600) (Scenario.screen 1 800 0 800 600)
           (Scenario.screen 2 1600 0 800 600)
           eq_refl eq_refl eq_refl).
Defined.

(** C2, as stated, fails: with three monitors on record and one geometry
    found, a single removal is emitted, for index 1, and two monitors stay
    on record. *)
Lemma shrink_removes_once :
  let r := nwm_scan_monitors Scenario.one_head (Scenario.with_monitors 3) in
  monitor_events (trace_of r) = [nwm_emit onRemoveMonitor (ev_monitor_id 1)]
  /\ total_monitors (state_of r) = 2
  /\ ~ (monitor_events (trace_of r) =
          [nwm_emit onRemoveMonitor (ev_monitor_id 2);
           nwm_emit onRemoveMonitor (ev_monitor_id 1)]
        /\ total_monitors (state_of r) = 1).
Proof.
  cbv zeta. split; [reflexivity|]. split; [reflexivity|].
  intros [H _]. vm_compute in H. discriminate H.
Qed.

(** C2 (amended): with three monitors on record and one geometry found, the
    rescan emits remove-monitor events and no other monitor event; they are
    for consecutive indices in ascending order, the first one being index 1
    (the new count), at least one and at most two of them; each lowers the
    recorded count by one, which never drops below the new count. *)
Theorem rescan_three_to_one (X : xserver) (s : nwm_t) (u : XineramaScreenInfo) :
  total_monitors s = 3 ->
  collect_unique [] (reply_XineramaQueryScreens X) = [u] ->
  reply_malloc X (sizeof_XineramaScreenInfo
                  * Z.of_nat (length (reply_XineramaQueryScreens X))) = true ->
  let r := nwm_scan_monitors X s in
  outcome r = Ok tt
  /\ exists k : nat,
       (1 <= k <= 2)%nat
       /\ monitor_events (trace_of r) = removals 1 k
       /\ total_monitors (state_of r) = 3 - Z.of_nat k
       /\ 1 <= total_monitors (state_of r).
Proof.
  intros Ht Hu Hm r. subst r.
  rewrite nwm_scan_monitors_query; [|rewrite Ht; apply andb_false_r|exact Hm].
  cbv zeta. rewrite Hu. cbn [length]. change (Z.of_nat 1) with 1.
  assert (Hgt : (total_monitors s <=? 1) = false) by lia. rewrite Hgt.
  destruct (remove_monitors_run (Z.to_nat (total_monitors s - 1)) 1 s ltac:(lia))
    as (k & E & _ & Hb).
  rewrite (bind_run _ _ _ _ _ _ E).
  destruct (nwm_update_selected_monitor_run X
              (set_total_monitors (total_monitors s - Z.of_nat k) s))
    as (tr & E' & Htr).
  rewrite E'. unfold outcome, state_of, trace_of. cbn [fst snd].
  split; [reflexivity|]. exists k. specialize (Hb ltac:(lia)).
  split; [lia|]. split.
  - rewrite monitor_events_app, Htr, app_nil_r. apply monitor_events_removals.
  - cbn [total_monitors set_total_monitors]. lia.
Qed.

Lemma rescan_three_to_one_witness :
  let X := Scenario.one_head in
  let s := Scenario.with_monitors 3 in
  let r := nwm_scan_monitors X s in
  total_monitors s = 3
  /\ collect_unique [] (reply_XineramaQueryScreens X)
     = [Scenario.screen 0 0 0 800 600]
  /\ reply_malloc X (sizeof_XineramaScreenInfo
                     * Z.of_nat (length (reply_XineramaQueryScreens X))) = true
  /\ outcome r = Ok tt
  /\ exists k : nat,
       (1 <= k <= 2)%nat
       /\ monitor_events (trace_of r) = removals 1 k
       /\ total_monitors (state_of r) = 3 - Z.of_nat k
       /\ 1 <= total_monitors (state_of r).
Proof.
  intros X s r.
  split; [reflexivity|]. split; [reflexivity|]. split; [reflexivity|].
  exact (rescan_three_to_one X s (Scenario.screen 0 0 0 800 600)
           eq_refl eq_refl eq_refl).
Defined.

(** C5: without the extension, the first rescan registers the synthetic
    monitor; the very next rescan, the extension still inactive and its
    query empty, emits a remove-monitor event for index 0 and leaves no
    monitor on record. *)
Theorem rescan_inactive_twice :
  let X := Scenario.single_head in
  let r1 := nwm_scan_monitors X Scenario.st0 in
  let r2 := nwm_scan_monitors X (state_of r1) in
  reply_XineramaIsActive X = false
  /\ trace_of r1 = [nwm_emit onAddMonitor (ev_monitor 0 0 0 1024 768)]
  /\ total_monitors (state_of r1) = 1
  /\ outcome r2 = Ok tt
  /\ trace_of r2 = [nwm_emit onRemoveMonitor (ev_monitor_id 0)]
  /\ total_monitors (state_of r2) = 0.
Proof. cbv zeta. repeat split. Qed.

(** ** Key grabs *)

Lemma for_each_trace {A} (body : A -> M unit) (tr : A -> list call) (l : list A) :
  (forall a s, body a s = (Ok tt, s, tr a)) ->
  forall s, for_each l body s = (Ok tt, s, flat_map tr l).
Proof.
  intros Hbody s. induction l as [|a l IH]; [reflexivity|].
  simpl. rewrite (bind_run _ _ _ _ _ _ (Hbody a s)), IH. reflexivity.
Qed.

Lemma nwm_grab_keys_run (X : xserver) (root_ : Window) (s : nwm_t) :
  nwm_grab_keys X root_ s =
  (Ok tt, set_numlockmask (reply_updatenumlockmask X) s,
   XUngrabKey AnyKey AnyModifier (root s)
   :: flat_map (key_grabs X (reply_updatenumlockmask X) (root s)) (keys s)).
Proof.
  unfold nwm_grab_keys.
  unfold bind at 1. cbn [modify]. unfold bind at 1. cbn [get].
  unfold bind at 1. cbn [do_].
  rewrite (for_each_trace _ (key_grabs X (reply_updatenumlockmask X) (root s))).
  - reflexivity.
  - intros k s'. reflexivity.
Qed.

Lemma key_grabs_four (X : xserver) (numlock : Z) (w : Window) (k : Key) :
  key_grabs X numlock w k =
  [XGrabKey (reply_XKeysymToKeycode X (keysym k)) (Z.lor (mod_ k) 0) w true
            GrabModeAsync GrabModeAsync;
   XGrabKey (reply_XKeysymToKeycode X (keysym k)) (Z.lor (mod_ k) LockMask) w true
            GrabModeAsync GrabModeAsync;
   XGrabKey (reply_XKeysymToKeycode X (keysym k)) (Z.lor (mod_ k) numlock) w true
            GrabModeAsync GrabModeAsync;
   XGrabKey (reply_XKeysymToKeycode X (keysym k))
            (Z.lor (mod_ k) (Z.lor numlock LockMask)) w true
            GrabModeAsync GrabModeAsync].
Proof. reflexivity. Qed.

Lemma grab_requests_count (X : xserver) (numlock : Z) (w : Window) (ks : list Key) :
  length (List.filter is_grab_request (flat_map (key_grabs X numlock w) ks))
  = (4 * length ks)%nat.
Proof.
  induction ks as [|k ks IH]; [reflexivity|].
  cbn [flat_map]. rewrite List.filter_app, length_app, IH.
  simpl. lia.
Qed.

Lemma grabs_after_app (t1 t2 : list call) (g : gset grab) :
  grabs_after (t1 ++ t2) g = grabs_after t2 (grabs_after t1 g).
Proof. apply foldl_app. Qed.

(** Grab requests only add to the set. *)
Lemma grabs_after_key_grabs (X : xserver) (numlock : Z) (w : Window)
    (ks : list Key) (g : gset grab) :
  grabs_after (flat_map (key_grabs X numlock w) ks) g
  = wanted_grabs X numlock w ks ∪ g.
Proof.
  revert g. induction ks as [|k ks IH]; intros g.
  - unfold wanted_grabs. simpl. symmetry. apply (left_id_L ∅ (∪)).
  - cbn [flat_map]. rewrite grabs_after_app, IH.
    unfold wanted_grabs. cbn [flat_map]. rewrite list_to_set_app_L.
    unfold key_grabs, lock_combinations, grabs_after. simpl.
    apply set_eq. intros x.
    rewrite !elem_of_union, !elem_of_singleton, elem_of_empty. tauto.
Qed.

(** The grab set one regrab leaves behind: the grabs on other windows, and
    on the root exactly those of the key table. *)
Lemma grabs_after_regrab (X : xserver) (root_ : Window) (s : nwm_t)
    (g : gset grab) :
  grabs_after (trace_of (nwm_grab_keys X root_ s)) g
  = wanted_grabs X (reply_updatenumlockmask X) (root s) (keys s)
    ∪ filter (fun x => released AnyKey AnyModifier (root s) x = false) g.
Proof.
  rewrite nwm_grab_keys_run. unfold trace_of. cbn [snd].
  change (grabs_after (?c :: ?t) g) with (grabs_after t (serve g c)).
  rewrite grabs_after_key_grabs. reflexivity.
Qed.

(** C9: regrabbing first ungrabs every key on the root window and then
    issues, for each binding of the key table, the four grab requests of the
    binding's modifier combined with no lock key, caps-lock, numlock and
    both; a second regrab over the same table and modifier mapping repeats
    these requests and leaves the server with the grab set the first one
    left. *)
Theorem regrab_idempotent (X : xserver) (root1 root2 : Window) (s : nwm_t)
    (g : gset grab) :
  let numlock := reply_updatenumlockmask X in
  let r1 := nwm_grab_keys X root1 s in
  let r2 := nwm_grab_keys X root2 (state_of r1) in
  trace_of r1 =
    XUngrabKey AnyKey AnyModifier (root s)
    :: flat_map (key_grabs X numlock (root s)) (keys s)
  /\ length (List.filter is_grab_request (trace_of r1)) = (4 * length (keys s))%nat
  /\ outcome r1 = Ok tt /\ outcome r2 = Ok tt
  /\ trace_of r2 = trace_of r1
  /\ grabs_after (trace_of r1 ++ trace_of r2) g = grabs_after (trace_of r1) g.
Proof.
  intros numlock r1 r2.
  assert (E2 : trace_of r2 = trace_of r1).
  { subst r1 r2. rewrite !nwm_grab_keys_run. reflexivity. }
  split; [subst r1; rewrite nwm_grab_keys_run; reflexivity|].
  split.
  { subst r1. rewrite nwm_grab_keys_run. unfold trace_of. cbn [snd List.filter is_grab_request].
    apply grab_requests_count. }
  split; [subst r1; rewrite nwm_grab_keys_run; reflexivity|].
  split; [subst r1 r2; rewrite !nwm_grab_keys_run; reflexivity|].
  split; [exact E2|].
  rewrite E2, grabs_after_app. subst r1.
  rewrite !grabs_after_regrab.
  apply set_eq. intros x.
  rewrite !elem_of_union, !elem_of_filter, !elem_of_union, !elem_of_filter.
  tauto.
Qed.

(** Two bindings: eight grabs on the root window, before and after a second
    regrab; a stale grab on the root is gone, a grab elsewhere stays. *)
Example regrab_two_keys :
  let X := Scenario.single_head in
  let t := trace_of (nwm_grab_keys X 0 Scenario.two_keys) in
  let g := {[ (9, 0, 1); (9, 0, 77) ]} : gset grab in
  length (List.filter is_grab_request t) = 8%nat
  /\ elements (grabs_after t g) ≡ₚ
     [(13, 64, 1); (13, 66, 1); (13, 80, 1); (13, 82, 1);
      (106, 65, 1); (106, 67, 1); (106, 81, 1); (106, 83, 1); (9, 0, 77)].
Proof.
  cbv zeta. split; [reflexivity|].
  apply NoDup_Permutation.
  - apply NoDup_elements.
  - apply NoDup_ListNoDup. repeat constructor; simpl; intuition discriminate.
  - intros x. rewrite elem_of_elements, grabs_after_regrab.
    rewrite elem_of_union. unfold wanted_grabs. rewrite elem_of_list_to_set.
    rewrite elem_of_filter. simpl.
    rewrite !elem_of_cons, !elem_of_union, !elem_of_nil, !elem_of_singleton.
    split.
    + intros [H|[Hr [->| ->]]].
      * decompose [or] H; subst; try contradiction; one_of.
      * vm_compute in Hr. discriminate Hr.
      * one_of.
    + intros H. decompose [or] H; subst; try contradiction;
        first [left; one_of | right; split; [reflexivity|one_of]].
Qed.

(** * Further properties of the code *)

(** ** Monitor registry: frame, bounds and the two branches in general *)

Lemma forallb_app_true {A} (f : A -> bool) (l1 l2 : list A) :
  forallb f l1 = true -> forallb f l2 = true -> forallb f (l1 ++ l2) = true.
Proof. intros H1 H2. rewrite forallb_app, H1, H2. reflexivity. Qed.


Section MonitorShape.
Context (X : xserver).

Lemma nwm_update_selected_monitor_trace (s : nwm_t) :
  nwm_update_selected_monitor X s = (Ok tt, s, pointer_probe X s).
Proof.
  unfold nwm_update_selected_monitor, pointer_probe.
  destruct (reply_getrootptr X) as [[x y]|]; reflexivity.
Qed.


Lemma pointer_probe_no_monitor_event (s : nwm_t) :
  monitor_events (pointer_probe X s) = [].
Proof.
  unfold pointer_probe. destruct (reply_getrootptr X) as [[x y]|]; reflexivity.
Qed.



End MonitorShape.


(** The growing branch of a rescan, in full. *)
Lemma grow_rescan (X : xserver) (s : nwm_t) (known : nat) :
  let unique := collect_unique [] (reply_XineramaQueryScreens X) in
  total_monitors s = Z.of_nat known ->
  (known <= length unique)%nat ->
  negb (reply_XineramaIsActive X) && (total_monitors s =? 0) = false ->
  reply_malloc X (sizeof_XineramaScreenInfo
                  * Z.of_nat (length (reply_XineramaQueryScreens X))) = true ->
  let r := nwm_scan_monitors X s in
  outcome r = Ok tt
  /\ monitor_events (trace_of r) =
     monitor_emissions onUpdateMonitor 0 (firstn known unique)
     ++ monitor_emissions onAddMonitor (Z.of_nat known) (skipn known unique)
  /\ state_of r = set_total_monitors (Z.of_nat (length unique)) s.
Proof.
  intros unique Ht Hle Hb Hm r. subst r.
  rewrite (nwm_scan_monitors_query X s Hb Hm). cbv zeta. fold unique.
  assert (Hleb : (total_monitors s <=? Z.of_nat (length unique)) = true) by lia.
  rewrite Hleb.
  rewrite (bind_run _ _ _ _ _ _ (emit_monitors_grow unique known s Ht Hle)).
  rewrite nwm_update_selected_monitor_trace.
  unfold outcome, state_of, trace_of. cbn [fst snd].
  split; [reflexivity|]. split; [|reflexivity].
  rewrite !monitor_events_app, !monitor_events_emissions by auto.
  rewrite pointer_probe_no_monitor_event, app_nil_r. reflexivity.
Qed.

(** X2: when the record of [known] monitors does not exceed the number of
    distinct geometries found, the rescan emits an update for each of the
    first [known] geometries and then an addition for each further one, in
    ascending index order, and the record ends at the number found. *)
Theorem scan_monitors_grow (X : xserver) (s : nwm_t) (known : nat) :
  let unique := collect_unique [] (reply_XineramaQueryScreens X) in
  total_monitors s = Z.of_nat known ->
  (known <= length unique)%nat ->
  negb (reply_XineramaIsActive X) && (total_monitors s =? 0) = false ->
  reply_malloc X (sizeof_XineramaScreenInfo
                  * Z.of_nat (length (reply_XineramaQueryScreens X))) = true ->
  let r := nwm_scan_monitors X s in
  outcome r = Ok tt
  /\ monitor_events (trace_of r) =
     monitor_emissions onUpdateMonitor 0 (firstn known unique)
     ++ monitor_emissions onAddMonitor (Z.of_nat known) (skipn known unique)
  /\ total_monitors (state_of r) = Z.of_nat (length unique).
Proof.
  intros unique Ht Hle Hb Hm r.
  destruct (grow_rescan X s known Ht Hle Hb Hm) as (Ho & Hev & Hs).
  fold unique in Hev, Hs. fold r in Ho, Hev, Hs.
  split; [exact Ho|]. split; [exact Hev|]. rewrite Hs. reflexivity.
Qed.

Lemma scan_monitors_grow_witness :
  let X := Scenario.three_heads in
  let s := Scenario.with_monitors 2 in
  let r := nwm_scan_monitors X s in
  total_monitors s = Z.of_nat 2
  /\ outcome r = Ok tt
  /\ monitor_events (trace_of r) =
     [nwm_emit onUpdateMonitor (ev_monitor 0 0 0 800 600);
      nwm_emit onUpdateMonitor (ev_monitor 1 800 0 800 600);
      nwm_emit onAddMonitor (ev_monitor 2 1600 0 800 600)]
  /\ total_monitors (state_of r) = 3.
Proof.
  intros X s r. split; [reflexivity|].
  exact (scan_monitors_grow X s 2 eq_refl ltac:(vm_compute; lia) eq_refl eq_refl).
Defined.

(** X3: when the record exceeds the number [nn] of distinct geometries
    found, the rescan emits removals for the indices [nn], [nn+1], ... in
    ascending order and nothing else about monitors.  The loop compares its
    rising index with the count it lowers, so it stops after half the
    surplus, rounded up, and the record ends at the old count less the
    removals made, never below [nn]. *)
Theorem scan_monitors_shrink (X : xserver) (s : nwm_t) :
  let nn := Z.of_nat (length (collect_unique [] (reply_XineramaQueryScreens X))) in
  nn < total_monitors s ->
  reply_malloc X (sizeof_XineramaScreenInfo
                  * Z.of_nat (length (reply_XineramaQueryScreens X))) = true ->
  let r := nwm_scan_monitors X s in
  outcome r = Ok tt
  /\ exists k : nat,
       total_monitors s - nn <= 2 * Z.of_nat k <= total_monitors s - nn + 1
       /\ monitor_events (trace_of r) = removals nn k
       /\ total_monitors (state_of r) = total_monitors s - Z.of_nat k
       /\ nn <= total_monitors (state_of r).
Proof.
  intros nn Hgt Hm r. subst r.
  assert (Hb : negb (reply_XineramaIsActive X) && (total_monitors s =? 0) = false).
  { assert (E : (total_monitors s =? 0) = false) by lia.
    rewrite E. apply andb_false_r. }
  rewrite (nwm_scan_monitors_query X s Hb Hm). cbv zeta. fold nn.
  assert (Hleb : (total_monitors s <=? nn) = false) by lia. rewrite Hleb.
  destruct (remove_monitors_run (Z.to_nat (total_monitors s - nn)) nn s
              ltac:(lia)) as (k & E & _ & Hk).
  rewrite (bind_run _ _ _ _ _ _ E), nwm_update_selected_monitor_trace.
  unfold outcome, state_of, trace_of. cbn [fst snd].
  split; [reflexivity|]. exists k. specialize (Hk Hgt).
  split; [exact Hk|]. split.
  - rewrite monitor_events_app, monitor_events_removals.
    rewrite pointer_probe_no_monitor_event, app_nil_r. reflexivity.
  - cbn [total_monitors set_total_monitors]. lia.
Qed.

Lemma scan_monitors_shrink_witness :
  let X := Scenario.one_head in
  let s := Scenario.with_monitors 4 in
  let r := nwm_scan_monitors X s in
  Z.of_nat (length (collect_unique [] (reply_XineramaQueryScreens X)))
    < total_monitors s
  /\ outcome r = Ok tt
  /\ exists k : nat,
       total_monitors s - 1 <= 2 * Z.of_nat k <= total_monitors s - 1 + 1
       /\ monitor_events (trace_of r) = removals 1 k
       /\ total_monitors (state_of r) = total_monitors s - Z.of_nat k
       /\ 1 <= total_monitors (state_of r).
Proof.
  intros X s r. split; [vm_compute; reflexivity|].
  exact (scan_monitors_shrink X s ltac:(vm_compute; reflexivity) eq_refl).
Defined.

(** X4: once the record matches what the extension reports, a rescan only
    refreshes: it emits one update per monitor, no addition and no removal,
    and leaves the [nwm] struct as it was. *)
Theorem scan_monitors_steady (X : xserver) (s : nwm_t) :
  let unique := collect_unique [] (reply_XineramaQueryScreens X) in
  total_monitors s = Z.of_nat (length unique) ->
  negb (reply_XineramaIsActive X) && (total_monitors s =? 0) = false ->
  reply_malloc X (sizeof_XineramaScreenInfo
                  * Z.of_nat (length (reply_XineramaQueryScreens X))) = true ->
  let r := nwm_scan_monitors X s in
  outcome r = Ok tt
  /\ state_of r = s
  /\ monitor_events (trace_of r) = monitor_emissions onUpdateMonitor 0 unique.
Proof.
  intros unique Ht Hb Hm r.
  destruct (grow_rescan X s (length unique) Ht (Nat.le_refl _) Hb Hm)
    as (Ho & Hev & Hs).
  fold unique in Hev, Hs. fold r in Ho, Hev, Hs.
  split; [exact Ho|]. split.
  - rewrite Hs, <- Ht. apply set_total_monitors_same.
  - rewrite Hev, firstn_all, skipn_all. cbn. apply app_nil_r.
Qed.

Lemma scan_monitors_steady_witness :
  let X := Scenario.three_heads in
  let s := Scenario.with_monitors 3 in
  let r := nwm_scan_monitors X s in
  total_monitors s = 3
  /\ outcome r = Ok tt
  /\ state_of r = s
  /\ monitor_events (trace_of r) =
     [nwm_emit onUpdateMonitor (ev_monitor 0 0 0 800 600);
      nwm_emit onUpdateMonitor (ev_monitor 1 800 0 800 600);
      nwm_emit onUpdateMonitor (ev_monitor 2 1600 0 800 600)].
Proof.
  intros X s r. split; [reflexivity|].
  exact (scan_monitors_steady X s eq_refl eq_refl eq_refl).
Defined.

(** X5: when the buffer for the deduplicated geometries cannot be
    allocated, the rescan leaves through [exit(-1)] before it has emitted
    anything or touched the record. *)
Theorem scan_monitors_out_of_memory (X : xserver) (s : nwm_t) :
  negb (reply_XineramaIsActive X) && (total_monitors s =? 0) = false ->
  reply_malloc X (sizeof_XineramaScreenInfo
                  * Z.of_nat (length (reply_XineramaQueryScreens X))) = false ->
  nwm_scan_monitors X s = (Exit (-1), s, []).
Proof.
  intros Hb Hm. unfold nwm_scan_monitors, bind, get. rewrite Hb, Hm. reflexivity.
Qed.

(** ** Deduplication of the reported geometries *)

Lemma same_geom_eq (a b : XineramaScreenInfo) :
  same_geom a b = true <-> geom a = geom b.
Proof.
  unfold same_geom, geom. rewrite !andb_true_iff, !Z.eqb_eq.
  split; [intros [[[-> ->] ->] ->]; reflexivity|].
  intros H. injection H as -> -> -> ->. repeat split.
Qed.

Lemma isuniquegeom_spec (unique : list XineramaScreenInfo)
    (info : XineramaScreenInfo) :
  isuniquegeom unique info = true <-> ~ In (geom info) (map geom unique).
Proof.
  unfold isuniquegeom. rewrite negb_true_iff, <- not_true_iff_false.
  rewrite existsb_exists, in_map_iff.
  split; intros H [u Hu]; apply H; exists u.
  - destruct Hu as [Hg Hin]. split; [exact Hin|]. apply same_geom_eq. exact Hg.
  - destruct Hu as [Hin Hg]. split; [apply same_geom_eq; exact Hg|exact Hin].
Qed.

Lemma collect_unique_spec (info : list XineramaScreenInfo) :
  forall unique : list XineramaScreenInfo,
    List.NoDup (map geom unique) ->
    let res := collect_unique unique info in
    List.NoDup (map geom res)
    /\ (length res <= length unique + length info)%nat
    /\ (forall x, In x res -> In x unique \/ In x info)
    /\ (forall x, In x unique \/ In x info -> In (geom x) (map geom res)).
Proof.
  induction info as [|i rest IH]; intros unique Hnd; cbn [collect_unique].
  - cbv zeta. split; [exact Hnd|]. split; [lia|].
    split; [auto|]. intros x [H|[]]. apply in_map. exact H.
  - destruct (isuniquegeom unique i) eqn:Hu.
    + apply isuniquegeom_spec in Hu.
      assert (Hnd' : List.NoDup (map geom (unique ++ [i]))).
      { rewrite map_app. apply List.NoDup_app; [exact Hnd|repeat constructor; auto|].
        intros g Hg [<-|[]]. contradiction. }
      destruct (IH (unique ++ [i]) Hnd') as (H1 & H2 & H3 & H4).
      cbv zeta. split; [exact H1|]. split.
      { rewrite length_app in H2. simpl in *. lia. }
      split.
      * intros x Hx. destruct (H3 x Hx) as [H|H]; [|right; right; exact H].
        apply in_app_or in H. destruct H as [H|[->|[]]]; [left; exact H|].
        right; left; reflexivity.
      * intros x [H|[->|H]]; apply H4.
        -- left. apply in_or_app. left. exact H.
        -- left. apply in_or_app. right. left. reflexivity.
        -- right. exact H.
    + assert (Hin : In (geom i) (map geom unique)).
      { destruct (in_dec (fun a b : Z * Z * Z * Z => decide (a = b))
                    (geom i) (map geom unique)) as [H|H]; [exact H|].
        apply isuniquegeom_spec in H. congruence. }
      destruct (IH unique Hnd) as (H1 & H2 & H3 & H4).
      cbv zeta. split; [exact H1|]. split; [simpl; lia|]. split.
      * intros x Hx. destruct (H3 x Hx) as [H|H]; [left; exact H|].
        right; right; exact H.
      * intros x [H|[->|H]].
        -- apply H4. left. exact H.
        -- apply in_map_iff in Hin. destruct Hin as (u & Hg & Hu').
           rewrite <- Hg. apply H4. left. exact Hu'.
        -- apply H4. right. exact H.
Qed.

(** X6: the geometries kept for reconciliation are entries of the reply, no
    two of them share a geometry, every reported geometry is among them, and
    there are at most as many as were reported, so the buffer allocated for
    [nn] entries is never overrun.  ([isuniquegeom] is as the specification
    describes it.) *)
Theorem collect_unique_dedup (info : list XineramaScreenInfo) :
  let unique := collect_unique [] info in
  List.NoDup (map geom unique)
  /\ (length unique <= length info)%nat
  /\ (forall u, In u unique -> In u info)
  /\ (forall i, In i info -> In (geom i) (map geom unique)).
Proof.
  destruct (collect_unique_spec info [] (List.NoDup_nil _)) as (H1 & H2 & H3 & H4).
  cbv zeta. split; [exact H1|]. split; [exact H2|]. split.
  - intros u Hu. destruct (H3 u Hu) as [[]|H]. exact H.
  - intros i Hi. apply H4. right. exact Hi.
Qed.

(** ** Adopting a window *)

(** X7: adopting a window leaves the [nwm] struct alone and addresses no
    other window; it raises the window exactly when the transient-for hint
    names a window other than [None]; it sends no flush; and it moves and
    resizes the window before it maps it, the map being its last request. *)
Theorem add_window_requests (X : xserver) (win : Window)
    (wa : XWindowAttributes) (s : nwm_t) :
  let r := nwm_add_window X win wa s in
  outcome r = Ok tt
  /\ state_of r = s
  /\ Forall (fun c => target c = Some win \/ is_emission c = true) (trace_of r)
  /\ (In (XRaiseWindow win) (trace_of r) <->
      exists t, reply_XGetTransientForHint X win = Some t /\ t <> None_)
  /\ ~ In XFlush (trace_of r)
  /\ exists pre,
       trace_of r =
       pre ++ [XMoveResizeWindow win (wa_x wa) (wa_y wa) (wa_width wa) (wa_height wa);
               XMapWindow win].
Proof.
  cbv zeta. destruct (nwm_add_window_run X win wa s) as (upd & _ & E).
  rewrite E. clear E. unfold outcome, state_of, trace_of. cbn [fst snd].
  set (trans := match reply_XGetTransientForHint X win with
                | Some t => t | None => None_ end).
  assert (Hfl : negb (trans =? None_) = true <->
                exists t, reply_XGetTransientForHint X win = Some t /\ t <> None_).
  { subst trans. rewrite negb_true_iff, Z.eqb_neq.
    destruct (reply_XGetTransientForHint X win) as [t|].
    - split; [intros H; exists t; auto|intros (t' & [= <-] & H); exact H].
    - split; [intros H; contradiction H; reflexivity|intros (t' & [=] & _)]. }
  split; [reflexivity|]. split; [reflexivity|].
  destruct (negb (trans =? None_)); cbn [app].
  - split; [addressed|].
    split; [split; [intros _; apply Hfl; reflexivity|intros _; cbn; tauto]|].
    split; [cbn; intuition discriminate|].
    exists [nwm_emit onAddWindow
              (ev_window win (wa_x wa) (wa_y wa) (wa_height wa) (wa_width wa) true);
            nwm_emit onUpdateWindow upd;
            XSendEvent win false StructureNotifyMask
              (ConfigureNotify win win (wa_x wa) (wa_y wa) (wa_width wa)
                 (wa_height wa) (wa_border_width wa) None_ false);
            XSelectInput win
              (Z.lor (Z.lor (Z.lor EnterWindowMask FocusChangeMask)
                            PropertyChangeMask) StructureNotifyMask);
            grabButtons win false; XRaiseWindow win].
    reflexivity.
  - split; [addressed|].
    split; [split; [cbn; intuition discriminate
                   |intros H; apply Hfl in H; discriminate H]|].
    split; [cbn; intuition discriminate|].
    exists [nwm_emit onAddWindow
              (ev_window win (wa_x wa) (wa_y wa) (wa_height wa) (wa_width wa) false);
            nwm_emit onUpdateWindow upd;
            XSendEvent win false StructureNotifyMask
              (ConfigureNotify win win (wa_x wa) (wa_y wa) (wa_width wa)
                 (wa_height wa) (wa_border_width wa) None_ false);
            XSelectInput win
              (Z.lor (Z.lor (Z.lor EnterWindowMask FocusChangeMask)
                            PropertyChangeMask) StructureNotifyMask);
            grabButtons win false].
    reflexivity.
Qed.

(** ** The startup scan in general *)

Lemma for_each_pure {A} (body : A -> M unit) (P : call -> bool) :
  (forall a s, exists tr, body a s = (Ok tt, s, tr) /\ forallb P tr = true) ->
  forall l s, exists tr,
    for_each l body s = (Ok tt, s, tr) /\ forallb P tr = true.
Proof.
  intros Hbody l s. induction l as [|a l IH].
  - exists []. split; reflexivity.
  - destruct (Hbody a s) as (t1 & E1 & H1). destruct IH as (t2 & E2 & H2).
    exists (t1 ++ t2). cbn [for_each]. rewrite (bind_run _ _ _ _ _ _ E1), E2.
    split; [reflexivity|]. apply forallb_app_true; assumption.
Qed.

Lemma nwm_add_window_adoption (X : xserver) (win : Window)
    (wa : XWindowAttributes) (s : nwm_t) :
  exists tr, nwm_add_window X win wa s = (Ok tt, s, tr)
             /\ forallb is_adoption_call tr = true.
Proof.
  destruct (nwm_add_window_run X win wa s) as (upd & _ & E).
  eexists. split; [exact E|].
  destruct (negb (_ =? None_)); reflexivity.
Qed.

Lemma scan_first_pass_adoption (X : xserver) (w : Window) (s : nwm_t) :
  exists tr, scan_first_pass X w s = (Ok tt, s, tr)
             /\ forallb is_adoption_call tr = true.
Proof.
  unfold scan_first_pass.
  destruct (reply_XGetWindowAttributes X w) as [wa|]; [|exists []; split; reflexivity].
  destruct (wa_override_redirect wa || status (reply_XGetTransientForHint X w));
    [exists []; split; reflexivity|].
  destruct (wa_map_state wa =? IsViewable); cbn [when];
    [apply nwm_add_window_adoption|exists []; split; reflexivity].
Qed.

Lemma scan_second_pass_adoption (X : xserver) (w : Window) (s : nwm_t) :
  exists tr, scan_second_pass X w s = (Ok tt, s, tr)
             /\ forallb is_adoption_call tr = true.
Proof.
  unfold scan_second_pass.
  destruct (reply_XGetWindowAttributes X w) as [wa|]; [|exists []; split; reflexivity].
  destruct (status (reply_XGetTransientForHint X w) && (wa_map_state wa =? IsViewable));
    cbn [when]; [apply nwm_add_window_adoption|exists []; split; reflexivity].
Qed.

Lemma nwm_scan_windows_shape (X : xserver) (s : nwm_t) :
  exists tr, nwm_scan_windows X s = (Ok tt, s, tr)
             /\ forallb is_adoption_call tr = true
             /\ (reply_XQueryTree X (root s) = None -> tr = []).
Proof.
  unfold nwm_scan_windows. unfold bind at 1. cbn [get].
  destruct (reply_XQueryTree X (root s)) as [wins|].
  - destruct (for_each_pure _ _ (scan_first_pass_adoption X) wins s)
      as (t1 & E1 & H1).
    destruct (for_each_pure _ _ (scan_second_pass_adoption X) wins s)
      as (t2 & E2 & H2).
    exists (t1 ++ t2). rewrite (bind_run _ _ _ _ _ _ E1), E2.
    split; [reflexivity|]. split; [apply forallb_app_true; assumption|].
    discriminate.
  - exists []. repeat split.
Qed.

(** X8: the startup scan always runs to its end and leaves the [nwm] struct
    alone; every call it makes belongs to the adoption of a window, so it
    never flushes, never grabs and emits no rearrange event; when
    [XQueryTree] fails it does nothing at all. *)
Theorem scan_windows_frame (X : xserver) (s : nwm_t) :
  let r := nwm_scan_windows X s in
  outcome r = Ok tt
  /\ state_of r = s
  /\ forallb is_adoption_call (trace_of r) = true
  /\ count_emits onRearrange (trace_of r) = 0%nat
  /\ ~ In XFlush (trace_of r)
  /\ (reply_XQueryTree X (root s) = None -> trace_of r = []).
Proof.
  cbv zeta. destruct (nwm_scan_windows_shape X s) as (tr & E & Htr & Hnone).
  rewrite E. unfold outcome, state_of, trace_of. cbn [fst snd].
  split; [reflexivity|]. split; [reflexivity|]. split; [exact Htr|].
  split; [|split; [|exact Hnone]].
  - clear E Hnone. induction tr as [|c tr IH]; [reflexivity|].
    cbn [forallb] in Htr. apply andb_prop in Htr. destruct Htr as [Hc Htr].
    unfold count_emits in *. cbn [List.filter].
    destruct c as [| | | | | | | | | | | | | | | | | | |cb ev];
      try (apply IH; exact Htr).
    destruct cb; try discriminate Hc; apply IH; exact Htr.
  - intros Hin. rewrite forallb_forall in Htr. apply Htr in Hin. discriminate Hin.
Qed.

(** X9: a child of the root is adopted by the startup scan exactly when
    its attributes can be read, it is viewable, and it either carries a
    transient-for hint or is not override-redirect. *)
Theorem scan_windows_adopts (X : xserver) (s : nwm_t) (wins : list Window)
    (w : Window) :
  reply_XQueryTree X (root s) = Some wins ->
  In w (added_windows (trace_of (nwm_scan_windows X s))) <->
  In w wins
  /\ exists wa, reply_XGetWindowAttributes X w = Some wa
                /\ wa_map_state wa = IsViewable
                /\ (status (reply_XGetTransientForHint X w) = true
                    \/ wa_override_redirect wa = false).
Proof.
  intros Htree.
  destruct (nwm_scan_windows_added X s wins Htree) as (tr & E & Hadd).
  rewrite E. unfold trace_of. cbn [snd]. rewrite Hadd.
  rewrite in_app_iff, !filter_In.
  unfold first_pass_adds, second_pass_adds, viewable_window.
  destruct (reply_XGetWindowAttributes X w) as [wa|].
  - destruct (wa_override_redirect wa) eqn:Ho;
      destruct (status (reply_XGetTransientForHint X w)) eqn:Ht;
      destruct (Z.eqb_spec (wa_map_state wa) IsViewable) as [Hv|Hv]; cbn;
      (split;
       [ intros [[Hin H]|[Hin H]]; try discriminate H;
         (split; [exact Hin|exists wa; repeat split; auto])
       | intros (Hin & wa' & Heq & Hv' & Hd); injection Heq as <-;
         try contradiction;
         destruct Hd as [Hd|Hd]; try discriminate Hd; try congruence;
         first [left; split; [exact Hin|reflexivity]
               |right; split; [exact Hin|reflexivity]] ]).
  - cbn. split; [intros [[_ H]|[_ H]]; discriminate H|].
    intros (_ & wa & [=] & _).
Qed.

Lemma scan_windows_adopts_witness :
  let X := Scenario.popup in
  reply_XQueryTree X (root Scenario.st0) = Some [10]
  /\ (In 10 (added_windows (trace_of (nwm_scan_windows X Scenario.st0))) <->
      In 10 [10]
      /\ exists wa, reply_XGetWindowAttributes X 10 = Some wa
                    /\ wa_map_state wa = IsViewable
                    /\ (status (reply_XGetTransientForHint X 10) = true
                        \/ wa_override_redirect wa = false)).
Proof.
  intros X. split; [reflexivity|].
  exact (scan_windows_adopts X Scenario.st0 [10] 10 eq_refl).
Defined.

(** X10: when the children of the root are pairwise distinct, the startup
    scan adopts no window twice. *)
Theorem scan_windows_adopts_once (X : xserver) (s : nwm_t) (wins : list Window) :
  reply_XQueryTree X (root s) = Some wins ->
  List.NoDup wins ->
  List.NoDup (added_windows (trace_of (nwm_scan_windows X s))).
Proof.
  intros Htree Hnd.
  destruct (nwm_scan_windows_added X s wins Htree) as (tr & E & Hadd).
  rewrite E. unfold trace_of. cbn [snd]. rewrite Hadd.
  apply List.NoDup_app; try (apply List.NoDup_filter; exact Hnd).
  intros w H1 H2. apply filter_In in H1. apply filter_In in H2.
  destruct H1 as [_ H1], H2 as [_ H2].
  unfold first_pass_adds, second_pass_adds in *.
  destruct (reply_XGetWindowAttributes X w) as [wa|]; [|discriminate H1].
  destruct (status (reply_XGetTransientForHint X w)).
  - rewrite andb_false_r in H1. discriminate H1.
  - discriminate H2.
Qed.

Lemma scan_windows_adopts_once_witness :
  let X := Scenario.popup in
  reply_XQueryTree X (root Scenario.st0) = Some [10]
  /\ List.NoDup [10]
  /\ List.NoDup (added_windows (trace_of (nwm_scan_windows X Scenario.st0))).
Proof.
  intros X.
  assert (Hnd : List.NoDup [10]) by (repeat constructor; simpl; tauto).
  split; [reflexivity|]. split; [exact Hnd|].
  exact (scan_windows_adopts_once X Scenario.st0 [10] eq_refl Hnd).
Defined.



(** ** Metadata refresh and removal *)

Lemma substring_prefix_length (n : nat) (s : string) :
  (String.length (substring 0 n s) <= n)%nat.
Proof.
  revert s. induction n as [|n IH]; intros [|c s]; simpl; try lia.
  specialize (IH s). lia.
Qed.

Lemma substring_prefix_all (n : nat) (s : string) :
  (String.length s <= n)%nat -> substring 0 n s = s.
Proof.
  revert s. induction n as [|n IH]; intros [|c s] H; simpl in *;
    try reflexivity; try lia.
  rewrite IH by lia. reflexivity.
Qed.

(** X12: a metadata refresh emits exactly one update-window-title event and
    changes nothing else.  Its title is never empty.  When the window has a
    class hint, class and instance are at most 255 characters long, equal
    to the hint's strings when these fit, and equal to the placeholder when
    the hint's pointer is null. *)
Theorem update_window_event (X : xserver) (win : Window) (s : nwm_t) :
  exists title instance klass,
    nwm_update_window X win s =
    (Ok tt, s, [nwm_emit onUpdateWindow (ev_window_title win title instance klass)])
    /\ title <> EmptyString
    /\ forall ch, reply_XGetClassHint X win = Some ch ->
         (String.length klass <= 255)%nat
         /\ (String.length instance <= 255)%nat
         /\ (res_class ch = None -> klass = broken)
         /\ (res_name ch = None -> instance = broken)
         /\ (forall c, res_class ch = Some c ->
               (String.length c <= 255)%nat -> klass = c)
         /\ (forall n, res_name ch = Some n ->
               (String.length n <= 255)%nat -> instance = n).
Proof.
  rewrite nwm_update_window_run.
  destruct (reply_XGetClassHint X win) as [ch|].
  - do 3 eexists. split; [reflexivity|]. split; [apply title_of_nonempty|].
    intros ch' [= <-].
    split; [apply substring_prefix_length|].
    split; [apply substring_prefix_length|].
    split; [intros ->; reflexivity|]. split; [intros ->; reflexivity|].
    split; intros x -> Hx; apply substring_prefix_all; exact Hx.
  - do 3 eexists. split; [reflexivity|]. split; [apply title_of_nonempty|].
    intros ch [=].
Qed.

Lemma nwm_remove_destroyed_run (X : xserver) (win : Window) (s : nwm_t) :
  nwm_remove_window X win true s =
  (Ok tt, set_selected (root s) s,
   [nwm_emit onRemoveWindow (ev_window_id win);
    grabButtons (root s) true;
    XSetInputFocus (root s) RevertToPointerRoot CurrentTime;
    SendEvent (root s) (reply_XInternAtom X "WM_TAKE_FOCUS");
    XFlush;
    nwm_emit onRearrange ev_null]).
Proof. reflexivity. Qed.

(** X13: the removal of a window that the server has already destroyed
    sends no request that names the window: it emits the removal, gives the
    focus to the root window, flushes and emits one rearrange event, without
    grabbing the server. *)
Theorem remove_destroyed_window (X : xserver) (win : Window) (s : nwm_t) :
  win <> root s ->
  let r := handler X (DestroyNotify win) s in
  outcome r = Ok tt
  /\ selected (state_of r) = root s
  /\ Forall (fun c => target c <> Some win) (trace_of r)
  /\ ~ In XGrabServer (trace_of r)
  /\ In (XSetInputFocus (root s) RevertToPointerRoot CurrentTime) (trace_of r)
  /\ count_emits onRemoveWindow (trace_of r) = 1%nat
  /\ count_emits onRearrange (trace_of r) = 1%nat.
Proof.
  intros Hw r. subst r. cbn [handler]. unfold event_destroynotify.
  rewrite nwm_remove_destroyed_run. unfold outcome, state_of, trace_of.
  cbn [fst snd].
  split; [reflexivity|]. split; [reflexivity|]. split.
  - repeat (apply List.Forall_cons;
            [cbn; first [discriminate | intros [= H]; apply Hw; symmetry; exact H]|]).
    apply List.Forall_nil.
  - split; [cbn; intuition discriminate|].
    split; [cbn; tauto|]. split; reflexivity.
Qed.

Lemma remove_destroyed_window_witness :
  let X := Scenario.one_client in
  let r := handler X (DestroyNotify 42) Scenario.st0 in
  42 <> root Scenario.st0
  /\ outcome r = Ok tt
  /\ selected (state_of r) = root Scenario.st0
  /\ Forall (fun c => target c <> Some 42) (trace_of r)
  /\ ~ In XGrabServer (trace_of r)
  /\ In (XSetInputFocus (root Scenario.st0) RevertToPointerRoot CurrentTime)
        (trace_of r)
  /\ count_emits onRemoveWindow (trace_of r) = 1%nat
  /\ count_emits onRearrange (trace_of r) = 1%nat.
Proof.
  intros X r.
  assert (H : 42 <> root Scenario.st0) by (vm_compute; discriminate).
  split; [exact H|]. exact (remove_destroyed_window X 42 Scenario.st0 H).
Defined.

(** ** Event handlers *)

Lemma set_selected_same (s : nwm_t) : set_selected (selected s) s = s.
Proof. destruct s; reflexivity. Qed.

(** X14: a property notification refreshes the metadata of its window
    exactly when it is not a deletion, its atom is [WM_NAME] or
    [_NET_WM_NAME], and it is not [WM_NAME] on the root window; then exactly
    one update-window-title event for that window is emitted.  Every other
    property notification, every deletion among them, has no effect. *)
Theorem propertynotify_refresh (X : xserver) (window : Window) (atom : Atom)
    (state : Z) (s : nwm_t) :
  let r := handler X (PropertyNotify window atom state) s in
  let refresh :=
    ~ (window = root s /\ atom = XA_WM_NAME)
    /\ state <> PropertyDelete
    /\ (atom = XA_WM_NAME \/ atom = reply_XInternAtom X "_NET_WM_NAME") in
  outcome r = Ok tt
  /\ state_of r = s
  /\ (refresh -> r = nwm_update_window X window s)
  /\ (~ refresh -> trace_of r = [])
  /\ (state = PropertyDelete -> trace_of r = []).
Proof.
  cbv zeta. cbn [handler]. unfold event_propertynotify, bind. cbn [get].
  assert (Hupd : forall b, outcome (when b (nwm_update_window X window) s) = Ok tt
                           /\ state_of (when b (nwm_update_window X window) s) = s).
  { intros []; cbn [when]; [rewrite nwm_update_window_run|]; split; reflexivity. }
  destruct (Z.eqb_spec window (root s)) as [Hr|Hr];
    destruct (Z.eqb_spec atom XA_WM_NAME) as [Ha|Ha]; cbn [andb];
    destruct (Z.eqb_spec state PropertyDelete) as [Hd|Hd]; cbn [orb];
    try (destruct (Z.eqb_spec atom (reply_XInternAtom X "_NET_WM_NAME")) as [Hn|Hn];
         cbn [when]);
    try rewrite nwm_update_window_run;
    unfold outcome, state_of, trace_of; cbn [fst snd];
    (split; [reflexivity|]); (split; [reflexivity|]);
    (split; [intros (H1 & H2 & H3); try reflexivity; exfalso;
             first [apply H1; split; assumption
                   |apply H2; assumption
                   |destruct H3; contradiction]|]);
    (split; [intros H; try reflexivity; exfalso; apply H;
             (split; [intros [? ?]; contradiction|]);
             (split; [assumption|]); auto
            |intros H; try reflexivity; contradiction]).
Qed.

(** X15: a focus-in event never changes the [nwm] struct.  When a window is
    selected and the event names another window, the focus is given back to
    the selected window (grab of its buttons, input focus, take-focus
    message, flush); otherwise nothing is sent. *)
Theorem focusin_reverts (X : xserver) (window : Window) (s : nwm_t) :
  let r := handler X (FocusIn window) s in
  outcome r = Ok tt
  /\ state_of r = s
  /\ (selected s <> 0 /\ window <> selected s ->
      trace_of r =
      [grabButtons (selected s) true;
       XSetInputFocus (selected s) RevertToPointerRoot CurrentTime;
       SendEvent (selected s) (reply_XInternAtom X "WM_TAKE_FOCUS");
       XFlush])
  /\ (selected s = 0 \/ window = selected s -> trace_of r = []).
Proof.
  cbv zeta. cbn [handler]. unfold event_focusin, bind. cbn [get].
  destruct (Z.eqb_spec (selected s) 0) as [Hs|Hs];
    destruct (Z.eqb_spec window (selected s)) as [Hw|Hw]; cbn [negb andb when];
    try rewrite nwm_focus_window_run;
    unfold outcome, state_of, trace_of; cbn [fst snd];
    try rewrite set_selected_same;
    (split; [reflexivity|]); (split; [reflexivity|]);
    (split; [intros [H1 H2]; try reflexivity; contradiction
            |intros [H|H]; try reflexivity; contradiction]).
Qed.

Lemma ldiff_lor_absorbed (state m mask : Z) :
  Z.ldiff m mask = 0 -> Z.ldiff (Z.lor state m) mask = Z.ldiff state mask.
Proof.
  intros H. apply Z.bits_inj'. intros n _.
  apply (f_equal (fun z => Z.testbit z n)) in H.
  rewrite Z.ldiff_spec, Z.bits_0 in H.
  rewrite !Z.ldiff_spec, Z.lor_spec.
  destruct (Z.testbit state n), (Z.testbit m n), (Z.testbit mask n);
    simpl in *; congruence.
Qed.

Lemma lock_combination_absorbed (numlock m : Z) :
  In m (lock_combinations numlock) ->
  Z.ldiff m (Z.lor numlock LockMask) = 0.
Proof.
  intros Hin. apply Z.bits_inj'. intros n _.
  rewrite Z.ldiff_spec, Z.lor_spec, Z.bits_0.
  destruct Hin as [<-|[<-|[<-|[<-|[]]]]];
    rewrite ?Z.lor_spec, ?Z.bits_0;
    destruct (Z.testbit numlock n), (Z.testbit LockMask n); reflexivity.
Qed.

(** X16: a key press is reported with the caps-lock and numlock bits
    cleared from its modifier state, so the report is the same whichever of
    the four lock combinations was held; in particular each of the four
    grabs of a binding reports the binding's own modifier, lock bits
    cleared. *)
Theorem keypress_ignores_locks (X : xserver) (x y keycode state m : Z)
    (s : nwm_t) :
  In m (lock_combinations (numlockmask s)) ->
  handler X (KeyPress x y keycode (Z.lor state m)) s
  = handler X (KeyPress x y keycode state) s
  /\ exists keysym modifier,
       trace_of (handler X (KeyPress x y keycode (Z.lor state m)) s) =
       [nwm_emit onKeyPress (ev_keypress x y keycode keysym modifier)]
       /\ modifier = Z.ldiff state (Z.lor (numlockmask s) LockMask)
       /\ Z.land modifier (Z.lor (numlockmask s) LockMask) = 0.
Proof.
  intros Hin. cbn [handler]. unfold event_keypress, bind, get, do_.
  rewrite (ldiff_lor_absorbed state m _ (lock_combination_absorbed _ _ Hin)).
  split; [reflexivity|]. do 2 eexists. unfold trace_of. cbn [snd app].
  split; [reflexivity|]. split; [reflexivity|].
  apply Z.bits_inj'. intros n _.
  rewrite Z.land_spec, Z.ldiff_spec, Z.bits_0.
  destruct (Z.testbit state n), (Z.testbit _ n); reflexivity.
Qed.

Lemma keypress_ignores_locks_witness :
  let X := Scenario.single_head in
  let s := set_numlockmask 16 Scenario.st0 in
  In 18 (lock_combinations (numlockmask s))
  /\ handler X (KeyPress 5 5 36 (Z.lor 64 18)) s
     = handler X (KeyPress 5 5 36 64) s
  /\ exists keysym modifier,
       trace_of (handler X (KeyPress 5 5 36 (Z.lor 64 18)) s) =
       [nwm_emit onKeyPress (ev_keypress 5 5 36 keysym modifier)]
       /\ modifier = Z.ldiff 64 (Z.lor (numlockmask s) LockMask)
       /\ Z.land modifier (Z.lor (numlockmask s) LockMask) = 0.
Proof.
  intros X s.
  assert (H : In 18 (lock_combinations (numlockmask s)))
    by (vm_compute; tauto).
  split; [exact H|]. exact (keypress_ignores_locks X 5 5 36 64 18 s H).
Defined.







(** X18: a configure notification for any other window has no effect: the
    cached screen size changes only on a notification for the root. *)
Theorem configurenotify_other (X : xserver) (event window : Window)
    (x y w h bw : Z) (above : Window) (o : bool) (s : nwm_t) :
  window <> root s ->
  handler X (ConfigureNotify event window x y w h bw above o) s = (Ok tt, s, []).
Proof.
  intros Hw. cbn [handler]. unfold event_configurenotify, bind. cbn [get].
  destruct (Z.eqb_spec window (root s)); [contradiction|reflexivity].
Qed.

Lemma configurenotify_other_witness :
  42 <> root Scenario.st0
  /\ handler Scenario.one_client
       (ConfigureNotify 42 42 0 0 640 480 1 0 false) Scenario.st0
     = (Ok tt, Scenario.st0, []).
Proof.
  assert (H : 42 <> root Scenario.st0) by (vm_compute; discriminate).
  split; [exact H|].
  exact (configurenotify_other Scenario.one_client 42 42 0 0 640 480 1 0 false
           Scenario.st0 H).
Defined.

(** ** The dispatch loop *)

Lemma same_bindings_refl (s : nwm_t) : same_bindings s s.
Proof. repeat split. Qed.







(** ** The key table and the grabs it stands for *)

Lemma wanted_grabs_window (X : xserver) (numlock : Z) (w : Window)
    (ks : list Key) (x : grab) :
  x ∈ wanted_grabs X numlock w ks -> x.2 = w.
Proof.
  unfold wanted_grabs. rewrite elem_of_list_to_set, list_elem_of_In.
  rewrite in_flat_map. intros (k & _ & Hx).
  apply in_map_iff in Hx. destruct Hx as (m & <- & _). reflexivity.
Qed.

(** X22: a regrab changes only the numlock mask of the [nwm] struct.  On
    the server it leaves every grab on another window as it was, and on the
    root window exactly the grabs of the key table: a grab left over from
    an earlier table is gone. *)
Theorem regrab_frame (X : xserver) (root_ : Window) (s : nwm_t)
    (g : gset grab) (x : grab) :
  let r := nwm_grab_keys X root_ s in
  let after := grabs_after (trace_of r) g in
  state_of r = set_numlockmask (reply_updatenumlockmask X) s
  /\ (x.2 <> root s -> (x ∈ after <-> x ∈ g))
  /\ (x.2 = root s ->
      (x ∈ after <->
       x ∈ wanted_grabs X (reply_updatenumlockmask X) (root s) (keys s))).
Proof.
  cbv zeta. rewrite grabs_after_regrab, nwm_grab_keys_run.
  split; [reflexivity|].
  rewrite elem_of_union, elem_of_filter. unfold released.
  rewrite !Z.eqb_refl. cbn [orb]. rewrite !andb_true_r.
  split; intros Hx.
  - split.
    + intros [H|[_ H]]; [apply wanted_grabs_window in H; contradiction|exact H].
    + intros H. right. split; [apply Z.eqb_neq; exact Hx|exact H].
  - split.
    + intros [H|[H _]]; [exact H|]. apply Z.eqb_neq in H. contradiction.
    + intros H. left. exact H.
Qed.

(** X23: registering a binding puts it at the head of the key table, and
    the next regrab then leaves the server with the four grabs of the new
    binding on top of what a regrab of the old table would have left.
    (The list node must be allocated.) *)
Theorem add_key_then_regrab (X : xserver) (sym : KeySym) (m : Z)
    (root_ : Window) (s : nwm_t) (g : gset grab) :
  reply_malloc X 24 = true ->
  let r := (nwm_add_key X sym m ;; nwm_grab_keys X root_) s in
  outcome r = Ok tt
  /\ keys (state_of r) = {| keysym := sym; mod_ := m |} :: keys s
  /\ grabs_after (trace_of r) g =
     list_to_set
       (map (fun lock => (reply_XKeysymToKeycode X sym, Z.lor m lock, root s))
            (lock_combinations (reply_updatenumlockmask X)))
     ∪ grabs_after (trace_of (nwm_grab_keys X root_ s)) g.
Proof.
  intros Hm r. subst r.
  assert (E : nwm_add_key X sym m s =
              (Ok tt, set_keys ({| keysym := sym; mod_ := m |} :: keys s) s, [])).
  { unfold nwm_add_key. rewrite Hm. reflexivity. }
  rewrite (bind_run _ _ _ _ _ _ E).
  set (s1 := set_keys ({| keysym := sym; mod_ := m |} :: keys s) s).
  pose proof (grabs_after_regrab X root_ s1 g) as H2.
  pose proof (nwm_grab_keys_run X root_ s1) as Hr.
  rewrite (grabs_after_regrab X root_ s g).
  rewrite Hr in H2 |- *. unfold outcome, state_of, trace_of in *.
  cbn [fst snd app] in *.
  split; [reflexivity|]. split; [reflexivity|].
  rewrite H2.
  unfold wanted_grabs at 1. cbn [flat_map keysym mod_ keys root s1 set_keys].
  rewrite list_to_set_app_L.
  fold (wanted_grabs X (reply_updatenumlockmask X) (root s) (keys s)).
  symmetry. apply (assoc_L (∪)).
Qed.

Lemma add_key_then_regrab_witness :
  let X := Scenario.single_head in
  let s := Scenario.two_keys in
  let g := {[ (9, 0, 77) ]} : gset grab in
  let r := (nwm_add_key X 120 8 ;; nwm_grab_keys X 0) s in
  reply_malloc X 24 = true
  /\ outcome r = Ok tt
  /\ keys (state_of r) = {| keysym := 120; mod_ := 8 |} :: keys s
  /\ grabs_after (trace_of r) g =
     list_to_set
       (map (fun lock => (reply_XKeysymToKeycode X 120, Z.lor 8 lock, root s))
            (lock_combinations (reply_updatenumlockmask X)))
     ∪ grabs_after (trace_of (nwm_grab_keys X 0 s)) g.
Proof.
  intros X s g r. split; [reflexivity|].
  exact (add_key_then_regrab X 120 8 0 s g eq_refl).
Defined.

(** ** Start-up *)





(** ** Forced termination *)

(** X25: closing a window never leaves the server grabbed and always ends
    with the regular error handler in force.  A client that takes part in
    WM_DELETE_WINDOW only gets that message, addressed to its window, and is
    not killed; any other client is killed between [XGrabServer] and
    [XUngrabServer], with the silent handler installed before the kill and
    a [XSync] after it. *)
Theorem kill_window_releases (X : xserver) (isprotodel : Window -> bool)
    (win : Window) (grabbed : bool) :
  let tr := nwm_kill_window X isprotodel win in
  after_kill tr (false, xerror) = (false, xerror)
  /\ (In (XKillClient win) tr <-> isprotodel win = false)
  /\ (isprotodel win = true ->
      tr = [Core (XSendEvent win false NoEventMask
                    (ClientMessage win (reply_XInternAtom X "WM_PROTOCOLS") 32
                       (reply_XInternAtom X "WM_DELETE_WINDOW") CurrentTime))])
  /\ (isprotodel win = false ->
      exists before after,
        tr = before ++ [XKillClient win] ++ after
        /\ after_kill before (grabbed, xerror) = (true, xerrordummy)
        /\ In (Core (XSync false)) after).
Proof.
  cbv zeta. unfold nwm_kill_window. destruct (isprotodel win).
  - split; [reflexivity|].
    split; [split; [cbn; intuition discriminate|discriminate]|].
    split; [reflexivity|discriminate].
  - split; [reflexivity|].
    split; [split; [reflexivity|cbn; tauto]|].
    split; [discriminate|]. intros _.
    exists [Core XGrabServer; XSetErrorHandler xerrordummy;
            XSetCloseDownMode DestroyAll],
           [Core (XSync false); XSetErrorHandler xerror; Core XUngrabServer].
    split; [reflexivity|]. split; [reflexivity|cbn; tauto].
Qed.

(** ** Two more cases the handlers settle *)

(** X26: a [_NET_WM_STATE] message about the fullscreen atom leaves the
    [nwm] struct alone and emits exactly one fullscreen event.  A first data
    word of zero empties the window's state property, raises nothing and
    reports 0; any other first data word stores the fullscreen atom, raises
    the window and reports 1. *)
Theorem clientmessage_fullscreen_toggle (X : xserver) (window : Window)
    (format l0 l1 : Z) (s : nwm_t) :
  to_unsigned_long l1 = reply_XInternAtom X "_NET_WM_STATE_FULLSCREEN" ->
  let state_atom := reply_XInternAtom X "_NET_WM_STATE" in
  let fullscreen := reply_XInternAtom X "_NET_WM_STATE_FULLSCREEN" in
  let r := handler X (ClientMessage window state_atom format l0 l1) s in
  outcome r = Ok tt
  /\ state_of r = s
  /\ count_emits onFullscreen (trace_of r) = 1%nat
  /\ (l0 = 0 ->
      trace_of r =
      [XChangeProperty window state_atom XA_ATOM 32 PropModeReplace [];
       nwm_emit onFullscreen (ev_window_fullscreen window 0)])
  /\ (l0 <> 0 ->
      trace_of r =
      [XChangeProperty window state_atom XA_ATOM 32 PropModeReplace [fullscreen];
       XRaiseWindow window;
       nwm_emit onFullscreen (ev_window_fullscreen window 1)]).
Proof.
  intros Hl state_atom fullscreen r. subst r. cbn [handler].
  rewrite (event_clientmessage_fullscreen X window state_atom l0 l1 s eq_refl Hl).
  unfold outcome, state_of, trace_of. cbn [fst snd]. rewrite Hl.
  destruct (Z.eqb_spec l0 0) as [H0|H0];
    (split; [reflexivity|]); (split; [reflexivity|]); (split; [reflexivity|]);
    split; intros H; try reflexivity; contradiction.
Qed.

Lemma clientmessage_fullscreen_toggle_witness :
  let X := Scenario.one_client in
  let r := handler X (ClientMessage 42 300 32 2 301) Scenario.st0 in
  to_unsigned_long 301 = reply_XInternAtom X "_NET_WM_STATE_FULLSCREEN"
  /\ outcome r = Ok tt
  /\ state_of r = Scenario.st0
  /\ count_emits onFullscreen (trace_of r) = 1%nat
  /\ (2 <> 0 ->
      trace_of r =
      [XChangeProperty 42 300 XA_ATOM 32 PropModeReplace [301];
       XRaiseWindow 42;
       nwm_emit onFullscreen (ev_window_fullscreen 42 1)]).
Proof.
  intros X r.
  destruct (clientmessage_fullscreen_toggle X 42 32 2 301 Scenario.st0 eq_refl)
    as (H1 & H2 & H3 & _ & H5).
  split; [reflexivity|]. split; [exact H1|]. split; [exact H2|].
  split; [exact H3|exact H5].
Defined.

(** X27: with the multi-head extension inactive and no monitor on record,
    a rescan does not query the extension: it records one monitor and emits
    exactly one monitor event, the addition of index 0 at the origin with
    the cached screen size. *)
Theorem scan_monitors_synthetic_first (X : xserver) (s : nwm_t) :
  reply_XineramaIsActive X = false ->
  total_monitors s = 0 ->
  let r := nwm_scan_monitors X s in
  outcome r = Ok tt
  /\ total_monitors (state_of r) = 1
  /\ monitor_events (trace_of r) =
     [nwm_emit onAddMonitor
        (ev_monitor 0 0 0 (screen_width s) (screen_height s))].
Proof. intros Hx Ht. exact (nwm_scan_monitors_synthetic X s Hx Ht). Qed.

Lemma scan_monitors_synthetic_first_witness :
  let X := Scenario.single_head in
  let r := nwm_scan_monitors X Scenario.st0 in
  reply_XineramaIsActive X = false
  /\ total_monitors Scenario.st0 = 0
  /\ outcome r = Ok tt
  /\ total_monitors (state_of r) = 1
  /\ monitor_events (trace_of r) =
     [nwm_emit onAddMonitor (ev_monitor 0 0 0 1024 768)].
Proof.
  intros X r. split; [reflexivity|]. split; [reflexivity|].
  exact (scan_monitors_synthetic_first X Scenario.st0 eq_refl eq_refl).
Defined.

Lemma scan_monitors_out_of_memory_witness :
  negb (reply_XineramaIsActive starved)
  && (total_monitors Scenario.st0 =? 0) = false
  /\ reply_malloc starved
       (sizeof_XineramaScreenInfo
        * Z.of_nat (length (reply_XineramaQueryScreens starved))) = false
  /\ nwm_scan_monitors starved Scenario.st0 = (Exit (-1), Scenario.st0, []).
Proof.
  split; [reflexivity|]. split; [reflexivity|].
  exact (scan_monitors_out_of_memory starved Scenario.st0 eq_refl eq_refl).
Defined.
